(** * Codenamize: a shallow embedding of [codenamize.py]

    The module maps an object (an integer, a text or a byte string) to a
    codename made of adjectives followed by a noun.  The embedding keeps the
    layout of the Python file: the word lists and their [extend] blocks, the
    stable sort by length, the two length tables, and the three functions
    [codenamize_particles], [codenamize_space] and [codenamize].

    Python semantics used below are those of Python 3 (the file is written
    against [six] and runs on both lines): integers are unbounded, [/]
    between integers is true division returning a double, [int] truncates a
    double towards zero, [%] takes the sign of the divisor. *)

From Stdlib Require Import ZArith NArith List String Ascii Bool Lia Arith.
From Stdlib Require Import Init.Byte Strings.Byte DecimalString DecimalPos DecimalZ.
From Stdlib Require Import Sorting.Permutation Sorting.Sorted.
Import ListNotations.

Local Open Scope Z_scope.

(** ** Python values, exceptions and the error monad *)

Module Py.

Inductive exn : Type :=
| ValueError        (* hashlib.new on an unknown algorithm *)
| ZeroDivisionError
| OverflowError     (* int / int too large for a double *)
| KeyError
| IndexError
| TypeError.

Inductive result (A : Type) : Type :=
| Ok (a : A)
| Raise (e : exn).
Arguments Ok {A} a.
Arguments Raise {A} e.

Definition bind {A B} (r : result A) (k : A -> result B) : result B :=
  match r with
  | Ok a => k a
  | Raise e => Raise e
  end.

Definition of_option {A} (e : exn) (o : option A) : result A :=
  match o with
  | Some a => Ok a
  | None => Raise e
  end.

Fixpoint mapM {A B} (f : A -> result B) (l : list A) : result (list B) :=
  match l with
  | [] => Ok []
  | x :: xs => bind (f x) (fun y => bind (mapM f xs) (fun ys => Ok (y :: ys)))
  end.

(** [range(lo, hi)], as the list it iterates over. *)
Definition range (lo hi : Z) : list Z :=
  map (fun k => lo + Z.of_nat k) (seq 0 (Z.to_nat (hi - lo))).

(** [len(l)], [l[i]] and [l[:k]] for [k >= 0]. *)
Definition len {A} (l : list A) : Z := Z.of_nat (List.length l).

Definition getitem {A} (l : list A) (i : Z) : result A :=
  let j := if i <? 0 then len l + i else i in
  if j <? 0 then Raise IndexError
  else of_option IndexError (nth_error l (Z.to_nat j)).

Definition slice_to {A} (l : list A) (k : nat) : list A := firstn k l.

(** [a % b] on integers. *)
Definition mod_ (a b : Z) : result Z :=
  if b =? 0 then Raise ZeroDivisionError else Ok (a mod b).

(** *** Doubles, as far as [int / int] and [int(float)] need them

    A finite double is [mant * 2 ^ expo] with [|mant| <= 2 ^ 53]. *)
Record float : Type := mkfloat { mant : Z; expo : Z }.

Definition round_half_even (num den : Z) : Z :=
  let q := num / den in
  let r := num mod den in
  if 2 * r <? den then q
  else if den <? 2 * r then q + 1
  else if Z.even q then q else q + 1.

(** The exponent at which [a / b] has a 53-bit significand, not below the
    exponent of the subnormal doubles. *)
Definition quotient_expo (a b : Z) : Z :=
  let e0 := Z.log2 a - Z.log2 b - 52 in
  let e1 :=
    if 2 ^ 52 * b * 2 ^ Z.max 0 e0 <=? a * 2 ^ Z.max 0 (- e0) then e0
    else e0 - 1 in
  Z.max e1 (-1074).

(** [a / b] for two integers: the quotient correctly rounded to the nearest
    double, ties to even; [ZeroDivisionError] when [b] is zero and
    [OverflowError] when the rounded quotient is not a finite double. *)
Definition truediv (a b : Z) : result float :=
  if b =? 0 then Raise ZeroDivisionError
  else if a =? 0 then Ok (mkfloat 0 0)
  else
    let a' := Z.abs a in
    let b' := Z.abs b in
    let e := quotient_expo a' b' in
    let m := round_half_even (a' * 2 ^ Z.max 0 (- e)) (b' * 2 ^ Z.max 0 e) in
    if 2 ^ 1024 <=? m * 2 ^ Z.max 0 e then Raise OverflowError
    else Ok (mkfloat (Z.sgn a * Z.sgn b * m) e).

(** [int(x)] for a finite double: truncation towards zero. *)
Definition int_of_float (x : float) : Z :=
  if 0 <=? expo x then mant x * 2 ^ expo x
  else Z.quot (mant x) (2 ^ (- expo x)).

(** *** Text and bytes

    A text is a [string] whose characters are read as the code points
    0..255; a byte string is a [list byte]. *)

(** The decimal numeral of an integer: a minus sign for a negative one,
    then its digits without leading zeros. *)
Definition decimal (n : Z) : string := NilZero.string_of_int (Z.to_int n).

(** [sys.int_info.default_max_str_digits]: the most digits an integer may
    have for its conversion to text (Python 3.11). *)
Definition int_max_str_digits : Z := 4300.

(** [str(n)] for an integer: its decimal numeral, or [ValueError] when the
    numeral has more digits, sign apart, than the limit. *)
Definition str (n : Z) : result string :=
  if int_max_str_digits <? Z.of_nat (String.length (decimal (Z.abs n)))
  then Raise ValueError
  else Ok (decimal n).

(** [s.encode('utf-8')]: one byte below U+0080, two bytes from there to
    U+00FF. *)
Definition utf8_char (c : ascii) : list byte :=
  let n := N_of_ascii c in
  if (n <? 128)%N then [byte_of_ascii c]
  else
    match Byte.of_N (192 + N.shiftr n 6), Byte.of_N (128 + N.land n 63) with
    | Some b1, Some b2 => [b1; b2]
    | _, _ => []
    end.

Definition encode_utf8 (s : string) : list byte :=
  flat_map utf8_char (list_ascii_of_string s).

(** [hexdigest()]: two lowercase hexadecimal digits per byte. *)
Definition hex_digit (n : N) : ascii :=
  if (n <? 10)%N then ascii_of_N (48 + n) else ascii_of_N (87 + n).

Definition hexdigest (d : list byte) : string :=
  string_of_list_ascii
    (flat_map (fun b => let n := Byte.to_N b in
                        [hex_digit (N.shiftr n 4); hex_digit (N.land n 15)]) d).

(** [int(s, 16)] on a string of hexadecimal digits, which is what
    [hexdigest()] returns. *)
Definition hex_value (c : ascii) : option Z :=
  let n := Z.of_N (N_of_ascii c) in
  if (48 <=? n) && (n <=? 57) then Some (n - 48)
  else if (97 <=? n) && (n <=? 102) then Some (n - 87)
  else if (65 <=? n) && (n <=? 70) then Some (n - 55)
  else None.

Fixpoint int16_from (acc : Z) (s : string) : result Z :=
  match s with
  | EmptyString => Ok acc
  | String c s' =>
      bind (of_option ValueError (hex_value c))
           (fun v => int16_from (16 * acc + v) s')
  end.

Definition int16 (s : string) : result Z :=
  match s with
  | EmptyString => Raise ValueError
  | _ => int16_from 0 s
  end.

(** [c.upper()] on the ASCII letters, the only characters of the word
    lists. *)
Definition upper (c : ascii) : ascii :=
  let n := N_of_ascii c in
  if ((97 <=? n) && (n <=? 122))%N then ascii_of_N (n - 32) else c.

(** [sep.join(ws)]. *)
Fixpoint join (sep : string) (ws : list string) : string :=
  match ws with
  | [] => EmptyString
  | [w] => w
  | w :: ws' => String.append w (String.append sep (join sep ws'))
  end.

(** [l.sort(key=len)] on a list of words: the sort is stable, so a word is
    inserted in front of the first word that is not shorter. *)
Fixpoint insert_by_len (w : string) (l : list string) : list string :=
  match l with
  | [] => [w]
  | v :: l' =>
      if (String.length w <=? String.length v)%nat then w :: v :: l'
      else v :: insert_by_len w l'
  end.

Definition sort_by_len (l : list string) : list string :=
  fold_right insert_by_len [] l.

End Py.

Notation "x <- c ;; k" := (Py.bind c (fun x => k))
  (at level 61, c at next level, right associativity).

(** ** [hashlib]

    [hashlib.new(name)] looks a digest up by name and raises [ValueError]
    when there is none.  The registry is kept abstract in the development
    ([hashlib_new] below); MD5, the default algorithm, is given in full
    after RFC 1321 so that codenames can be computed. *)

Module MD5.

Definition add32 (a b : Z) : Z := (a + b) mod 2 ^ 32.

Definition not32 (a : Z) : Z := Z.lxor a 0xffffffff.

Definition rotl32 (x c : Z) : Z :=
  Z.lor (Z.shiftl x c mod 2 ^ 32) (Z.shiftr x (32 - c)).

Definition S : list Z :=
  [7; 12; 17; 22; 7; 12; 17; 22; 7; 12; 17; 22; 7; 12; 17; 22;
   5;  9; 14; 20; 5;  9; 14; 20; 5;  9; 14; 20; 5;  9; 14; 20;
   4; 11; 16; 23; 4; 11; 16; 23; 4; 11; 16; 23; 4; 11; 16; 23;
   6; 10; 15; 21; 6; 10; 15; 21; 6; 10; 15; 21; 6; 10; 15; 21].

Definition K : list Z :=
  [0xd76aa478; 0xe8c7b756; 0x242070db; 0xc1bdceee;
   0xf57c0faf; 0x4787c62a; 0xa8304613; 0xfd469501;
   0x698098d8; 0x8b44f7af; 0xffff5bb1; 0x895cd7be;
   0x6b901122; 0xfd987193; 0xa679438e; 0x49b40821;
   0xf61e2562; 0xc040b340; 0x265e5a51; 0xe9b6c7aa;
   0xd62f105d; 0x02441453; 0xd8a1e681; 0xe7d3fbc8;
   0x21e1cde6; 0xc33707d6; 0xf4d50d87; 0x455a14ed;
   0xa9e3e905; 0xfcefa3f8; 0x676f02d9; 0x8d2a4c8a;
   0xfffa3942; 0x8771f681; 0x6d9d6122; 0xfde5380c;
   0xa4beea44; 0x4bdecfa9; 0xf6bb4b60; 0xbebfbc70;
   0x289b7ec6; 0xeaa127fa; 0xd4ef3085; 0x04881d05;
   0xd9d4d039; 0xe6db99e5; 0x1fa27cf8; 0xc4ac5665;
   0xf4292244; 0x432aff97; 0xab9423a7; 0xfc93a039;
   0x655b59c3; 0x8f0ccc92; 0xffeff47d; 0x85845dd1;
   0x6fa87e4f; 0xfe2ce6e0; 0xa3014314; 0x4e0811a1;
   0xf7537e82; 0xbd3af235; 0x2ad7d2bb; 0xeb86d391].

(** Little-endian bytes of a word and back. *)
Fixpoint le_bytes (n : nat) (x : Z) : list Z :=
  match n with
  | O => []
  | Datatypes.S n' => x mod 256 :: le_bytes n' (x / 256)
  end.

Definition le_word (bs : list Z) : Z :=
  fold_right (fun b acc => b + 256 * acc) 0 bs.

(** Padding: a one bit, zeros up to 56 modulo 64, then the bit length on 64
    bits. *)
Definition pad (msg : list Z) : list Z :=
  let n := Z.of_nat (List.length msg) in
  let zeros := Z.to_nat ((55 - n) mod 64) in
  msg ++ [128] ++ repeat 0 zeros ++ le_bytes 8 ((8 * n) mod 2 ^ 64).

Fixpoint words (n : nat) (bs : list Z) : list Z :=
  match n with
  | O => []
  | Datatypes.S n' => le_word (firstn 4 bs) :: words n' (skipn 4 bs)
  end.

Fixpoint blocks (fuel : nat) (bs : list Z) : list (list Z) :=
  match fuel, bs with
  | O, _ => []
  | _, [] => []
  | Datatypes.S f, _ => words 16 (firstn 64 bs) :: blocks f (skipn 64 bs)
  end.

Definition state : Type := (Z * Z * Z * Z)%type.

Definition step (M : list Z) (st : state) (i : Z) : state :=
  let '(a, b, c, d) := st in
  let f :=
    if i <? 16 then Z.lor (Z.land b c) (Z.land (not32 b) d)
    else if i <? 32 then Z.lor (Z.land d b) (Z.land (not32 d) c)
    else if i <? 48 then Z.lxor b (Z.lxor c d)
    else Z.lxor c (Z.lor b (not32 d)) in
  let g :=
    if i <? 16 then i
    else if i <? 32 then (5 * i + 1) mod 16
    else if i <? 48 then (3 * i + 5) mod 16
    else (7 * i) mod 16 in
  let x := add32 (add32 (add32 f a) (nth (Z.to_nat i) K 0))
                 (nth (Z.to_nat g) M 0) in
  (d, add32 b (rotl32 x (nth (Z.to_nat i) S 0)), b, c).

Definition compress (st : state) (M : list Z) : state :=
  let '(a0, b0, c0, d0) := st in
  let '(a, b, c, d) := fold_left (step M) (Py.range 0 64) st in
  (add32 a0 a, add32 b0 b, add32 c0 c, add32 d0 d).

Definition init : state := (0x67452301, 0xefcdab89, 0x98badcfe, 0x10325476).

Definition to_byte (x : Z) : byte :=
  match Byte.of_N (Z.to_N x) with
  | Some b => b
  | None => x00
  end.

Definition digest (msg : list byte) : list byte :=
  let bs := pad (map (fun b => Z.of_N (Byte.to_N b)) msg) in
  let '(a, b, c, d) := fold_left compress (blocks (List.length bs) bs) init in
  map to_byte (le_bytes 4 a ++ le_bytes 4 b ++ le_bytes 4 c ++ le_bytes 4 d).

End MD5.

(** ** The word lists

    Each list is built by a literal followed by [extend] calls, then sorted
    by word length; the blocks below are those of the source, in order. *)

Local Open Scope string_scope.

Definition ADJECTIVES_block0 : list string := [
  "low"; "dim"; "open"; "soft"; "vast"; "calm"; "deep"; "slow"; "pure";
  "worn"; "easy"; "cool"; "airy"; "bare"; "late"; "lean"; "still"; "empty";
  "quiet"; "whole"; "light"; "clear"; "aware"; "loose"; "fresh"; "plain";
  "faint"; "lowly"; "woven"; "mossy"; "early"; "simple"; "humble"; "rooted";
  "gentle"; "subtle"; "silent"; "supple"; "hidden"; "serene"; "tender";
  "folded"; "modest"; "honest"; "sparse"; "fallow"; "dimlit"; "spaced";
  "silted"; "shaded"; "veiled"; "hollow"; "mellow"; "flowing"; "natural";
  "patient"; "present"; "rounded"; "playful"; "aligned"; "bending";
  "unbound"; "ancient"; "letting"; "swaying"; "distant"; "willing";
  "lowborn"; "moonlit"; "slender"; "untamed"; "cracked"; "resting";
  "soothed"; "dawnlit"; "settled"; "leafing"; "gentled"; "unforced";
  "yielding"; "grounded"; "balanced"; "flexible"; "timeless"; "dwelling";
  "fragrant"; "tranquil"; "gracious"; "seasoned"; "drifting"; "watchful";
  "receding"; "floating"; "unsought"; "gentlest"; "seasonal"; "spiraled";
  "shadowed"; "pathless"; "barefoot"; "returning"; "wandering"; "weathered";
  "welcoming"; "listening"; "unhurried"; "breathing"; "receptive";
  "submerged"; "limber"; "resting"; "soothed"; "settled"; "hidden";
  "deepest"; "lightest"; "emptiest"; "earliest"; "latest"; "softest";
  "stillest"; "quietest"; "gentlest"; "barest"; "oldest"; "simplest";
  "deepening"; "bright"; "shifting"; "softening"; "cooling"; "warming";
  "floating"; "wandering"; "settling"; "stilling"; "spreading"; "clearing"
]%string.

Definition ADJECTIVES_block1 : list string := [
  "clearer"; "lighter"; "slower"; "deeper"; "softer"; "emptier"; "vaster";
  "cooler"; "quieter"; "warmer"; "simpler"; "purer"; "looser"; "steadier";
  "smoother"; "broader"; "lower"; "lighter"; "gentler"; "older"; "younger";
  "brighter"; "dimmed"; "rooting"; "bending"; "flowing"; "glimmering";
  "settling"; "wandering"; "drifting"; "stilling"; "listening"; "welcoming";
  "shifting"; "dimming"; "spreading"; "loosening"; "warming"; "cooling";
  "opening"; "closing"; "stretching"; "thinning"; "clearing"; "rising";
  "lowering"; "folding"; "gathering"; "quieting"; "softening"; "pausing";
  "stilling"; "waiting"; "breathing"; "touching"; "holding"; "resting";
  "yielding"; "balancing"; "spanning"; "swaying"; "hovering"; "leaning";
  "lingering"; "hollowing"; "brimming"; "spilling"; "sheltering"; "blooming";
  "fading"; "returning"; "renewing"; "opening"; "closing"; "growing";
  "shrinking"; "waning"; "waxing"; "stilling"; "sinking"; "rising";
  "broadening"; "narrowing"; "stilling"; "lengthening"; "shortening";
  "deepening"; "shallowing"; "anchoring"; "loosening"; "softening";
  "hardening"; "filling"; "emptying"; "gleaming"; "shadowing"; "clouding";
  "clearing"; "grounding"; "lifting"; "stretching"; "breathing"; "soothing";
  "mending"
]%string.

Definition ADJECTIVES_block2 : list string := [
  "leafy"; "misty"; "woody"; "stony"; "muddy"; "earthy"; "windy"; "frosty";
  "dewy"; "dusty"; "cloudy"; "starry"; "flowery"; "rooted"; "branching";
  "budding"; "ripening"; "shedding"; "drooping"; "curling"; "drifting";
  "floating"; "hovering"; "pooling"; "soaking"; "melting"; "fading";
  "glowing"; "gleaming"; "shimmering"; "twining"; "spiraling"; "branching";
  "arching"; "swaying"; "reaching"; "climbing"; "crawling"; "settling";
  "weathering"; "softening"; "hardening"; "brightening"; "darkening";
  "warming"; "cooling"; "soothing"; "stilling"; "quieting"; "calming";
  "stretching"; "spreading"; "deepening"; "broadening"; "narrowing";
  "lengthening"; "shortening"; "loosening"; "anchoring"; "grounding";
  "sinking"; "rising"; "waxing"; "waning"; "draining"; "filling";
  "balancing"; "centering"; "resting"; "waiting"; "blooming"; "rippling";
  "trickling"; "flowing"; "pouring"; "streaming"; "raining"; "snowing";
  "freezing"; "thawing"; "covering"; "uncovering"; "revealing"; "veiling";
  "shadowing"; "clearing"; "opening"; "closing"; "forming"; "dissolving";
  "returning"; "pausing"; "watching"; "listening"; "wandering"; "roaming";
  "meandering"; "lingering"; "drifting"; "spanning"
]%string.

Definition ADJECTIVES_block3 : list string := [
  "rocky"; "sandy"; "brambly"; "thorny"; "grassy"; "shadowy"; "foggy";
  "hazy"; "smoky"; "icy"; "glassy"; "pebbly"; "knotted"; "twisted"; "woven";
  "sinuous"; "undulating"; "layered"; "banded"; "ringed"; "speckled";
  "spotted"; "flecked"; "pitted"; "creased"; "furrowed"; "etched"; "veined";
  "ridged"; "weathered"; "ancient"; "primordial"; "eldest"; "immemorial";
  "eternal"; "boundless"; "measureless"; "endless"; "infinite"; "limitless";
  "unfolding"; "becoming"; "rippling"; "edging"; "measuring"; "mirroring";
  "reflected"; "absorbing"; "radiant"; "gleaming"; "whispering"; "murmuring";
  "humming"; "ringing"; "singing"; "resounding"; "echoing"; "calling";
  "inviting"; "beckoning"; "embracing"; "holding"; "enfolding";
  "surrounding"; "cradling"; "nurturing"; "enclosing"; "enveloping";
  "nesting"; "harboring"; "layering"; "masking"; "shading"; "softening";
  "cooling"; "warming"; "freshening"; "stilling"; "clearing"; "brightening";
  "opening"; "parting"; "receding"; "unfolding"; "arching"; "curving";
  "rolling"; "lapping"; "lapping"; "edging"; "skimming"; "gliding";
  "swaying"; "shifting"; "slipping"; "flowing"; "curling"; "twisting";
  "sliding"; "sloping"
]%string.

Definition ADJECTIVES_block4 : list string := [
  "rootless"; "tangled"; "knotted"; "fibrous"; "woody"; "barky"; "lichened";
  "weatherbeaten"; "fissured"; "cracked"; "splintered"; "splitting";
  "shimmered"; "matte"; "muted"; "dimmed"; "smoothed"; "polished";
  "tarnished"; "blurred"; "softened"; "washed"; "waterworn"; "windworn";
  "sunworn"; "faded"; "bleached"; "paled"; "brushed"; "dappled"; "mottled";
  "shadowed"; "deepset"; "set"; "imbued"; "infused"; "drenched"; "soaked";
  "moistened"; "parched"; "crisp"; "brittle"; "papery"; "grainy"; "sandy";
  "gritty"; "chalky"; "clayey"; "pebbled"; "stubbled"; "graveled"; "silted";
  "tilled"; "furrowed"; "plowed"; "seeded"; "sprouted"; "leafed"; "flowered";
  "fruited"; "barebranched"; "barelimbed"; "budding"; "bloomed"; "fallen";
  "scattered"; "strewn"; "littered"; "layered"; "blanketed"; "mantled";
  "veiled"; "hooded"; "capped"; "crowned"; "canopied"; "vaulted"; "pillared";
  "terraced"; "tiered"; "winding"; "meandering"; "branching"; "forking";
  "splitting"; "braided"; "laced"; "threaded"; "filigreed"; "etched";
  "grooved"; "furrowed"; "pitted"; "scored"; "scratched"; "marred";
  "scarred"; "traced"; "lined"; "wrinkled"
]%string.

Definition ADJECTIVES_block5 : list string := [
  "tumbled"; "layering"; "sheened"; "singular"; "ancient"; "timely";
  "patient"; "seasoning"; "yielding"; "pressing"; "shimmering"; "wavering";
  "burgeoning"; "cresting"; "soaring"; "plunging"; "suspended"; "hovering";
  "wandering"; "migrating"; "seasonal"; "evanescent"; "delicate"; "subdued";
  "drawn"; "pale"; "vivid"; "fleeting"; "vanishing"; "gleamed"; "flourished";
  "hidden"; "revealed"; "masked"; "blended"; "fused"; "joined"; "seamed";
  "woven"; "braided"; "rolling"; "collapsing"; "rising"; "settled";
  "layered"; "pooled"; "spread"; "arching"; "trembling"; "quivering";
  "drifting"; "glowing"; "yielded"; "held"; "carried"; "borne"; "drawn";
  "touched"; "kissed"; "brushed"; "drenched"; "dappled"; "painted"; "cast";
  "lifted"; "turned"; "folded"; "shaded"; "softened"; "veiled"; "borne";
  "whispered"; "sounded"; "carried"; "suspended"; "floating"; "eddying";
  "circling"; "ringing"; "pealing"; "glinting"; "gleaming"; "flashing";
  "glistening"; "tinted"; "smudged"; "layered"; "frosted"; "iced"; "melted";
  "flowed"; "poured"; "streamed"; "widened"; "narrowed"; "cleansed";
  "smoothed"; "sanded"; "grained"; "carved"
]%string.

Definition NOUNS_block0 : list string := [
  "air"; "arc"; "bank"; "beam"; "bell"; "bough"; "breeze"; "brook"; "bud";
  "burl"; "cairn"; "calm"; "canopy"; "cave"; "chime"; "cliff"; "cloud";
  "coil"; "crag"; "crest"; "curve"; "current"; "dawn"; "day"; "dew"; "drift";
  "drop"; "dusk"; "dust"; "earth"; "echo"; "field"; "fire"; "flake"; "flow";
  "fog"; "fold"; "foot"; "form"; "frost"; "glade"; "gleam"; "grain"; "grove";
  "gust"; "haze"; "hill"; "hollow"; "hue"; "isle"; "knot"; "lake"; "leaf";
  "light"; "line"; "moss"; "mist"; "moon"; "mote"; "mountain"; "mud";
  "night"; "noise"; "path"; "peak"; "pebble"; "petal"; "plain"; "pool";
  "pulse"; "rain"; "reed"; "rest"; "ridge"; "rift"; "ring"; "rise"; "rock";
  "root"; "scale"; "seed"; "shade"; "shadow"; "shape"; "shell"; "shine";
  "shoot"; "shore"; "sky"; "slip"; "smoke"; "snow"; "soil"; "song"; "spark";
  "spine"; "spring"; "star"; "stem"; "step"; "stone"; "stream"; "stripe";
  "sun"; "tide"; "time"; "tone"; "track"; "trail"; "tree"; "trunk"; "valley";
  "vein"; "view"; "vine"; "voice"; "wake"; "wave"; "way"; "whirl"; "whisper";
  "wind"; "wing"; "wood"; "word"; "wreath"; "zenith"
]%string.

Definition NOUNS_block1 : list string := [
  "ash"; "bark"; "beam"; "birch"; "blossom"; "bloom"; "bolt"; "branch";
  "brim"; "bur"; "call"; "cane"; "cedar"; "clay"; "clearing"; "climb";
  "cone"; "cover"; "crust"; "dell"; "dome"; "echo"; "ember"; "fan"; "fern";
  "fiber"; "firefly"; "flare"; "flow"; "foam"; "fold"; "fume"; "furrow";
  "glimmer"; "groove"; "gust"; "hollow"; "horizon"; "hum"; "hush"; "ivy";
  "lark"; "layer"; "limb"; "lily"; "loam"; "loop"; "mire"; "murmur";
  "mycelium"; "nest"; "net"; "niche"; "nook"; "oak"; "omen"; "overhang";
  "palm"; "patch"; "peak"; "perch"; "pine"; "pitch"; "plane"; "pond";
  "print"; "pulse"; "quartz"; "quiet"; "reach"; "reed"; "rift"; "rill";
  "ring"; "rip"; "rise"; "rock"; "root"; "rush"; "sap"; "scatter"; "scuff";
  "scrub"; "shade"; "shaft"; "sheen"; "shoot"; "shrub"; "silk"; "silt";
  "slope"; "smudge"; "solstice"; "spark"; "speck"; "spore"; "spray"; "sprig";
  "spur"; "stack"; "stone"; "strand"; "stream"; "stump"; "swirl"; "thatch";
  "thicket"; "thorn"; "thread"; "thrill"; "thrush"; "thrum"; "thud"; "thump";
  "tilt"; "tint"; "tongue"; "track"; "trickle"; "twig"; "vault"; "veil";
  "verge"; "vine"; "vista"; "wade"; "warp"; "wash"; "way"; "whirl"; "willow";
  "wink"; "wisp"; "wither"; "wreath"; "yew"
]%string.

Definition NOUNS_block2 : list string := [
  "ant"; "ape"; "bee"; "beetle"; "beet"; "berry"; "bison"; "boar"; "branch";
  "briar"; "bull"; "burrow"; "carp"; "cat"; "cedar"; "clover"; "cockle";
  "conch"; "crane"; "creek"; "cress"; "crow"; "deer"; "dog"; "dove"; "eel";
  "egret"; "elm"; "falcon"; "fern"; "finch"; "fish"; "flint"; "fowl"; "fox";
  "frog"; "furl"; "goat"; "goose"; "hare"; "hawk"; "heron"; "ibis"; "jay";
  "koi"; "leaflet"; "lichen"; "lotus"; "magnet"; "moth"; "mulch"; "mussel";
  "nettle"; "newt"; "nut"; "oak"; "ox"; "owl"; "peach"; "pearl"; "peril";
  "pine"; "plum"; "pond"; "poppy"; "quail"; "quartz"; "quill"; "raven";
  "reed"; "reptile"; "robin"; "rootlet"; "rush"; "rye"; "salmon"; "scale";
  "scar"; "seal"; "seedling"; "shell"; "shrub"; "sleet"; "snail"; "snake";
  "sparrow"; "spine"; "squid"; "stonecrop"; "stork"; "streamlet"; "swan";
  "swift"; "thorn"; "thrush"; "thunder"; "tidepool"; "toad"; "topaz";
  "trail"; "trickle"; "trunk"; "tusk"; "vineyard"; "vulture"; "walnut";
  "wavelet"; "weasel"; "weed"; "weft"; "whale"; "wheat"; "wren"; "zephyr";
  "amber"; "arc"; "ash"; "balm"; "basin"; "beam"; "bristle"; "bur"; "cairn";
  "cavern"; "clod"; "coil"; "curl"; "dune"; "eddy"; "flare"; "fold";
  "fountain"; "grove"; "hollow"; "jet"; "lode"; "mantle"; "marsh"; "niche";
  "pinnacle"; "quartz"; "rapids"; "reef"; "rootlet"; "runoff"; "rushes";
  "sapling"; "shoal"; "slope"; "spume"; "surf"
]%string.

Definition NOUNS_block3 : list string := [
  "alder"; "anemone"; "ashlar"; "asp"; "atoll"; "aura"; "avalanche";
  "bamboo"; "bank"; "banyan"; "basalt"; "bay"; "beacon"; "beam"; "birch";
  "bloom"; "bluff"; "bog"; "boulder"; "breeze"; "briar"; "brine"; "brooklet";
  "cactus"; "cascade"; "cedar"; "chasm"; "cliffside"; "clover"; "cobble";
  "coral"; "cotton"; "crag"; "cranny"; "crevice"; "crook"; "crystal";
  "currant"; "dahlia"; "dam"; "delta"; "depth"; "dove"; "driftwood"; "eddy";
  "elm"; "elmwood"; "fennel"; "fernwood"; "fjord"; "flint"; "fogbank";
  "fungus"; "garden"; "glen"; "granite"; "grove"; "gull"; "gypsum"; "hazel";
  "heather"; "hemlock"; "herb"; "holloway"; "horizon"; "ice"; "iris";
  "jasmine"; "juniper"; "kale"; "kettle"; "lagoon"; "lichen"; "limestone";
  "lotus"; "magnolia"; "mallow"; "marsh"; "mire"; "mistletoe"; "moraine";
  "mosswood"; "myrtle"; "nebula"; "orchid"; "osprey"; "palm"; "pansy";
  "papyrus"; "pasture"; "peak"; "peony"; "pinewood"; "pinnacle"; "poplar";
  "prairie"; "puff"; "reedbed"; "relic"; "ridge"; "rill"; "riprap"; "river";
  "rosette"; "rushwood"; "sage"; "sedge"; "shard"; "sheaf"; "sleet";
  "slough"; "snag"; "snowbank"; "solstice"; "spindle"; "spume"; "steeple";
  "steppe"; "stubble"; "sundew"; "swale"; "sycamore"; "tam"; "tarn";
  "thistle"; "torrent"; "trickle"; "tundra"; "understory"; "upland";
  "valley"; "vernal"; "vetch"; "vista"; "waterfall"; "wattle"; "wave";
  "willowherb"; "woodland"; "zinnia"
]%string.

Local Close Scope string_scope.

Definition ADJECTIVES_unsorted : list string :=
  ADJECTIVES_block0 ++ ADJECTIVES_block1 ++ ADJECTIVES_block2
    ++ ADJECTIVES_block3 ++ ADJECTIVES_block4 ++ ADJECTIVES_block5.

Definition NOUNS_unsorted : list string :=
  NOUNS_block0 ++ NOUNS_block1 ++ NOUNS_block2 ++ NOUNS_block3.

(** [ADJECTIVES.sort(key=lambda x: len(x))] and the same for [NOUNS]. *)
Definition ADJECTIVES : list string := Py.sort_by_len ADJECTIVES_unsorted.
Definition NOUNS : list string := Py.sort_by_len NOUNS_unsorted.

(** The two dictionaries [{ l: sum(1 for a in L if len(a) <= l) for l in
    (3, ..., 9) }]; a key outside 3..9 is a [KeyError]. *)
Definition count_upto (l : Z) (L : list string) : nat :=
  List.length (filter (fun a => Z.of_nat (String.length a) <=? l) L).

Definition lengths_table (L : list string) (l : Z) : Py.result nat :=
  if (3 <=? l) && (l <=? 9) then Py.Ok (count_upto l L)
  else Py.Raise Py.KeyError.

Definition ADJECTIVES_LENGTHS : Z -> Py.result nat := lengths_table ADJECTIVES.
Definition NOUNS_LENGTHS : Z -> Py.result nat := lengths_table NOUNS.

(** ** The functions *)

(** The objects the functions accept: [None], an integer, a text, a byte
    string. *)
Inductive pyobj : Type :=
| PyNone
| PyInt (n : Z)
| PyText (s : string)
| PyBytes (b : list byte).

(** What [codenamize_particles] returns: the size of the codename space or
    the list of words. *)
Inductive particles_or_space : Type :=
| Space (n : Z)
| Words (ws : list string).

(** The multiplier of the digest. *)
Definition PRIME_FACTOR : Z := 36413321723440003717.

(** The loop over [particles]: one word per list, the index divided by the
    length of the list with [int(index / len(p))]. *)
Fixpoint select_words (particles : list (list string)) (index : Z)
    (codename_particles : list string) : Py.result (list string) :=
  match particles with
  | [] => Py.Ok codename_particles
  | p :: rest =>
      i <- Py.mod_ index (Py.len p) ;;
      w <- Py.getitem p i ;;
      q <- Py.truediv index (Py.len p) ;;
      select_words rest (Py.int_of_float q) (codename_particles ++ [w])
  end.

Section Codenamize.

(** [hashlib.new]: the digest function registered under a name, if any. *)
Variable hashlib_new : string -> option (list byte -> list byte).

Definition codenamize_particles (obj : pyobj) (adjectives max_item_chars : Z)
    (hash_algo : string) : Py.result particles_or_space :=
  (* Minimum length of 3 is required *)
  let max_item_chars :=
    if (0 <? max_item_chars) && (max_item_chars <? 3) then 3
    else max_item_chars in
  let max_item_chars := if 9 <? max_item_chars then 0 else max_item_chars in
  (* Prepare codename word lists and calculate size of codename space *)
  let particles :=
    [NOUNS] ++ map (fun _ => ADJECTIVES) (Py.range 0 adjectives) in
  particles <-
    (if 0 <? max_item_chars then
       n <- NOUNS_LENGTHS max_item_chars ;;
       adjs <- Py.mapM (fun _ => a <- ADJECTIVES_LENGTHS max_item_chars ;;
                                 Py.Ok (Py.slice_to ADJECTIVES a))
                       (Py.range 0 adjectives) ;;
       Py.Ok (Py.slice_to NOUNS n :: adjs)
     else Py.Ok particles) ;;
  let total_words := fold_left Z.mul (map Py.len particles) 1 in
  (* Return size of codename space if no object is passed *)
  match obj with
  | PyNone => Py.Ok (Space total_words)
  | _ =>
      (* Convert numbers to strings *)
      obj <- match obj with
             | PyInt n => s <- Py.str n ;; Py.Ok (PyText s)
             | _ => Py.Ok obj
             end ;;
      let obj :=
        match obj with PyText s => Py.encode_utf8 s | PyBytes b => b | _ => [] end in
      hh <- Py.of_option Py.ValueError (hashlib_new hash_algo) ;;
      d <- Py.int16 (Py.hexdigest (hh obj)) ;;
      let obj_hash := d * PRIME_FACTOR in
      (* Calculate codename words *)
      index <- Py.mod_ obj_hash total_words ;;
      codename_particles <- select_words particles index [] ;;
      Py.Ok (Words (rev codename_particles))
  end.

Definition codenamize_space (adjectives max_item_chars : Z)
    (hash_algo : string) : Py.result particles_or_space :=
  codenamize_particles PyNone adjectives max_item_chars hash_algo.

(** [p[0].upper() + p[1:]]. *)
Definition capitalize_word (p : string) : Py.result string :=
  match p with
  | EmptyString => Py.Raise Py.IndexError
  | String c p' => Py.Ok (String (Py.upper c) p')
  end.

Definition codenamize (obj : pyobj) (adjectives max_item_chars : Z)
    (join : option string) (capitalize : bool) (hash_algo : string)
    : Py.result string :=
  codename_particles <-
    codenamize_particles obj adjectives max_item_chars hash_algo ;;
  let join := match join with None => EmptyString | Some j => j end in
  match codename_particles with
  | Space _ => Py.Raise Py.TypeError
  | Words ws =>
      ws <- (if capitalize then Py.mapM capitalize_word ws else Py.Ok ws) ;;
      Py.Ok (Py.join join ws)
  end.

End Codenamize.

(** The registry with MD5 alone, enough to run the documented examples. *)
Definition hashlib_md5 (name : string) : option (list byte -> list byte) :=
  if String.eqb name "md5" then Some MD5.digest else None.

(** ** The specification's vocabulary

    The definitions below follow the words of the specification; the
    theorems compare them with the functions above. *)

(** The ceiling after normalisation: 1 and 2 become 3, anything above 9
    becomes 0 (no limit). *)
Definition normalized_ceiling (c : Z) : Z :=
  if (0 <? c) && (c <? 3) then 3 else if 9 <? c then 0 else c.

(** The words of a list that a normalised ceiling lets through, and how
    many they are. *)
Definition effective_list (L : list string) (c : Z) : list string :=
  if 0 <? c then firstn (count_upto c L) L else L.

Definition effective_size (L : list string) (c : Z) : Z :=
  if 0 <? c then Z.of_nat (count_upto c L) else Py.len L.

Definition effectiveNounSize (max_item_chars : Z) : Z :=
  effective_size NOUNS (normalized_ceiling max_item_chars).

Definition effectiveAdjectiveSize (max_item_chars : Z) : Z :=
  effective_size ADJECTIVES (normalized_ceiling max_item_chars).

(** The particle-list sequence: the noun list, then one adjective list per
    adjective. *)
Definition particle_lists (adjectives max_item_chars : Z) : list (list string) :=
  let c := normalized_ceiling max_item_chars in
  effective_list NOUNS c :: repeat (effective_list ADJECTIVES c) (Z.to_nat adjectives).

(** The object as the bytes that are hashed. *)
Definition object_bytes (obj : pyobj) : list byte :=
  match obj with
  | PyNone => []
  | PyInt n => Py.encode_utf8 (Py.decimal n)
  | PyText s => Py.encode_utf8 s
  | PyBytes b => b
  end.

(** The objects whose conversion to text succeeds: all but the integers of
    more than [int_max_str_digits] digits. *)
Definition convertible (obj : pyobj) : Prop :=
  match obj with
  | PyInt n =>
      Z.of_nat (String.length (Py.decimal (Z.abs n))) <= Py.int_max_str_digits
  | _ => True
  end.

(** The conversion of the object to text, for its error alone. *)
Definition conversion (obj : pyobj) : Py.result unit :=
  match obj with
  | PyInt n => _ <- Py.str n ;; Py.Ok tt
  | _ => Py.Ok tt
  end.

(** A digest read as one big-endian unsigned integer. *)
Definition big_endian (d : list byte) : Z :=
  fold_left (fun acc b => 256 * acc + Z.of_N (Byte.to_N b)) d 0.

(** Mixed-radix decoding: for each list in order, the word at
    [index mod len(L)], then [index = floor(index / len(L))]. *)
Fixpoint mixed_radix (lists : list (list string)) (index : Z) : list string :=
  match lists with
  | [] => []
  | L :: rest =>
      nth (Z.to_nat (index mod Py.len L)) L EmptyString
        :: mixed_radix rest (index / Py.len L)
  end.

(** The words the specification selects for a digest. *)
Definition spec_words (digest : list byte) (adjectives max_item_chars : Z)
    : list string :=
  let lists := particle_lists adjectives max_item_chars in
  let totalWords := fold_left Z.mul (map Py.len lists) 1 in
  let objHash := big_endian digest * 36413321723440003717 in
  rev (mixed_radix lists (objHash mod totalWords)).

(** [s] is a suffix of [t]. *)
Definition is_suffix (s t : string) : Prop :=
  exists p, t = String.append p s.

(** A word of at least [k] characters. *)
Definition at_least (k : nat) (w : string) : Prop :=
  (k <= String.length w)%nat.

(** A character below U+0080, encoded as itself. *)
Definition plain_char (c : ascii) : Prop := (N_of_ascii c < 128)%N.

(** A word with its first letter in upper case. *)
Definition capitalized (w : string) : string :=
  match w with
  | EmptyString => EmptyString
  | String c s => String (Py.upper c) s
  end.

(** The order of the sort: a word is not longer than the next. *)
Definition shorter (v w : string) : Prop :=
  (String.length v <= String.length w)%nat.

(** ** Facts about the Python model *)

Module PyFacts.
Import Py.

Lemma round_half_even_bounds num den :
  0 < den ->
  num / den <= round_half_even num den <= num / den + 1 /\
  (round_half_even num den = num / den + 1 -> den <= 2 * (num mod den)).
Proof.
  intros Hden. unfold round_half_even.
  destruct (Z.ltb_spec (2 * (num mod den)) den) as [H1 | H1].
  - split; [lia | lia].
  - destruct (Z.ltb_spec den (2 * (num mod den))) as [H2 | H2].
    + split; [lia | lia].
    + destruct (Z.even (num / den)); split; lia.
Qed.

Lemma quotient_expo_small a b :
  0 < a < 2 ^ 53 -> 0 < b < 2 ^ 53 ->
  let e := quotient_expo a b in
  -105 <= e <= 0 /\ 2 ^ 52 * b <= a * 2 ^ (- e).
Proof.
  intros Ha Hb. unfold quotient_expo.
  pose proof (Z.log2_spec a ltac:(lia)) as La.
  pose proof (Z.log2_spec b ltac:(lia)) as Lb.
  assert (Ha53 : Z.log2 a < 53) by (apply Z.log2_lt_pow2; lia).
  assert (Hb53 : Z.log2 b < 53) by (apply Z.log2_lt_pow2; lia).
  pose proof (Z.log2_nonneg a) as Ha0.
  pose proof (Z.log2_nonneg b) as Hb0.
  set (la := Z.log2 a) in *. set (lb := Z.log2 b) in *.
  set (e0 := la - lb - 52).
  assert (He0 : -104 <= e0 <= 0) by (unfold e0; lia).
  replace (Z.max 0 e0) with 0 by lia.
  replace (Z.max 0 (- e0)) with (- e0) by lia.
  rewrite Z.pow_0_r, Z.mul_1_r.
  destruct (Z.leb_spec (2 ^ 52 * b) (a * 2 ^ (- e0))) as [Hge | Hlt].
  - replace (Z.max e0 (-1074)) with e0 by lia. split; [lia | exact Hge].
  - replace (Z.max (e0 - 1) (-1074)) with (e0 - 1) by lia.
    split; [lia |].
    replace (- (e0 - 1)) with (lb + 1 + 52 - la) by (unfold e0; lia).
    assert (Hpow : 2 ^ la * 2 ^ (lb + 1 + 52 - la) = 2 ^ 52 * 2 ^ (lb + 1)).
    { rewrite <- !Z.pow_add_r by lia. f_equal. lia. }
    assert (Hp : 0 < 2 ^ (lb + 1 + 52 - la)) by (apply Z.pow_pos_nonneg; lia).
    replace (Z.succ lb) with (lb + 1) in Lb by lia.
    assert (H1 : 2 ^ la * 2 ^ (lb + 1 + 52 - la) <= a * 2 ^ (lb + 1 + 52 - la))
      by (apply Z.mul_le_mono_nonneg_r; lia).
    lia.
Qed.

Lemma scaled_quotient_bounds a b P k t q r :
  0 < b -> 0 < P ->
  a = b * k + t -> 0 <= t < b ->
  a * P = b * q + r -> 0 <= r < b ->
  k * P <= q /\ q < (k + 1) * P.
Proof.
  intros Hb HP Ha Ht Hq Hr. subst a.
  assert (HtP : 0 <= t * P) by (apply Z.mul_nonneg_nonneg; lia).
  assert (HtP' : t * P < b * P) by (apply Z.mul_lt_mono_pos_r; lia).
  split.
  - assert (H : b * (k * P) < b * (q + 1)) by lia.
    apply Z.mul_lt_mono_pos_l in H; lia.
  - assert (H : b * q < b * ((k + 1) * P)) by lia.
    apply Z.mul_lt_mono_pos_l in H; lia.
Qed.

(** Below [2 ^ 53] the double quotient truncates to the integer quotient. *)
Lemma truediv_exact a b :
  0 <= a < 2 ^ 53 -> 0 < b < 2 ^ 53 ->
  exists f, truediv a b = Ok f /\ int_of_float f = a / b.
Proof.
  intros Ha Hb. unfold truediv.
  destruct (Z.eqb_spec b 0) as [-> | _]; [lia |].
  destruct (Z.eqb_spec a 0) as [-> | Hne].
  - eexists. split; [reflexivity |]. reflexivity.
  - rewrite (Z.abs_eq a), (Z.abs_eq b) by lia.
    destruct (quotient_expo_small a b ltac:(lia) Hb) as [He Hnorm].
    set (e := quotient_expo a b) in *.
    replace (Z.max 0 e) with 0 by lia.
    replace (Z.max 0 (- e)) with (- e) by lia.
    rewrite Z.pow_0_r, !Z.mul_1_r.
    set (P := 2 ^ (- e)) in *.
    assert (HP : 0 < P) by (apply Z.pow_pos_nonneg; lia).
    assert (HP105 : P <= 2 ^ 105) by (apply Z.pow_le_mono_r; lia).
    destruct (round_half_even_bounds (a * P) b ltac:(lia)) as [Hm Hup].
    set (m := round_half_even (a * P) b) in *.
    pose proof (Z.div_mod (a * P) b ltac:(lia)) as Hdm.
    pose proof (Z.mod_pos_bound (a * P) b ltac:(lia)) as Hr.
    pose proof (Z.div_mod a b ltac:(lia)) as Hdm'.
    pose proof (Z.mod_pos_bound a b ltac:(lia)) as Hr'.
    set (q := a * P / b) in *. set (r := (a * P) mod b) in *.
    set (k := a / b) in *. set (t := a mod b) in *.
    assert (Hk : 0 <= k) by (apply Z.div_pos; lia).
    assert (HaP : 0 <= a * P) by (apply Z.mul_nonneg_nonneg; lia).
    assert (Hq0 : 0 <= q) by (apply Z.div_pos; lia).
    assert (Hqa : q <= a * P).
    { apply Z.div_le_upper_bound; [lia |].
      rewrite <- (Z.mul_1_l (a * P)) at 1.
      apply Z.mul_le_mono_nonneg_r; lia. }
    clearbody q r k t.
    (* q lies in [k * P, (k + 1) * P) *)
    destruct (scaled_quotient_bounds a b P k t q r) as [Hq1 Hq2]; try lia.
    (* the rounded significand stays below (k + 1) * P *)
    assert (Hm2 : m < (k + 1) * P).
    { destruct (Z.eq_dec m (q + 1)) as [Heq | Hneq]; [| lia].
      specialize (Hup Heq).
      destruct (Z.eq_dec (q + 1) ((k + 1) * P)) as [Htop | Hntop]; [| lia].
      exfalso.
      assert (Hr2 : r = b - P * (b - t)).
      { assert (Hq : q = (k + 1) * P - 1) by lia.
        clear - Hdm Hdm' Hq. subst q. subst a. ring_simplify in Hdm. lia. }
      assert (HPt : P * 1 <= P * (b - t))
        by (apply Z.mul_le_mono_nonneg_l; lia).
      assert (HbP : 2 * P <= b) by lia.
      assert (H53 : 2 ^ 53 * P <= a * P) by lia.
      apply Z.mul_le_mono_pos_r in H53; lia. }
    assert (Hsmall : m < 2 ^ 1024).
    { assert (a * P <= 2 ^ 53 * 2 ^ 105)
        by (apply Z.mul_le_mono_nonneg; lia).
      assert (2 ^ 53 * 2 ^ 105 + 1 < 2 ^ 1024) by (vm_compute; reflexivity).
      lia. }
    destruct (Z.leb_spec (2 ^ 1024) m) as [Hov | _]; [lia |].
    eexists. split; [reflexivity |].
    unfold int_of_float; cbn [mant expo].
    replace (Z.sgn a * Z.sgn b * m) with m
      by (rewrite (Z.sgn_pos a), (Z.sgn_pos b) by lia; lia).
    assert (Hres : m / P = k).
    { symmetry. apply Z.div_unique with (r := m - k * P); lia. }
    destruct (Z.leb_spec 0 e) as [He0 | He0].
    + assert (e = 0) by lia. subst P. 
      replace (- e) with 0 in * by lia. rewrite Z.pow_0_r in *.
      rewrite Z.div_1_r in Hres. replace e with 0 by lia. rewrite Z.pow_0_r. lia.
    + rewrite Z.quot_div_nonneg by lia. exact Hres.
Qed.

End PyFacts.

(** ** Facts about the word lists and the helpers *)

Module Facts.
Import Py.

Lemma mapM_const {A B} (y : B) (l : list A) :
  mapM (fun _ => Ok y) l = Ok (map (fun _ => y) l).
Proof.
  induction l as [| x l IH]; simpl; [reflexivity |].
  rewrite IH. reflexivity.
Qed.

Lemma map_const_seq {B} (y : B) (n s : nat) :
  map (fun _ : nat => y) (seq s n) = repeat y n.
Proof.
  revert s. induction n as [| n IH]; intros s; simpl; [reflexivity |].
  rewrite IH. reflexivity.
Qed.

Lemma map_const_range {B} (y : B) (a : Z) :
  map (fun _ => y) (range 0 a) = repeat y (Z.to_nat a).
Proof.
  unfold range. rewrite map_map, Z.sub_0_r. apply map_const_seq.
Qed.

Lemma range_negative (a : Z) : a <= 0 -> range 0 a = [].
Proof.
  intros Ha. unfold range. replace (Z.to_nat (a - 0)) with O by lia.
  reflexivity.
Qed.

Lemma count_upto_le (c : Z) (L : list string) :
  (count_upto c L <= List.length L)%nat.
Proof. unfold count_upto. apply filter_length_le. Qed.

Lemma len_slice_count (c : Z) (L : list string) :
  len (slice_to L (count_upto c L)) = Z.of_nat (count_upto c L).
Proof.
  unfold len, slice_to. rewrite length_firstn.
  pose proof (count_upto_le c L). lia.
Qed.

Lemma len_effective_list (L : list string) (c : Z) :
  len (effective_list L c) = effective_size L c.
Proof.
  unfold effective_list, effective_size.
  destruct (0 <? c); [apply len_slice_count | reflexivity].
Qed.

Lemma fold_mul_scale (l : list Z) (x : Z) :
  fold_left Z.mul l x = x * fold_left Z.mul l 1.
Proof.
  revert x. induction l as [| y l IH]; intros x; cbn [fold_left]; [lia |].
  rewrite (IH (x * y)), (IH (1 * y)). lia.
Qed.

Lemma fold_mul_repeat (n : nat) (x k : Z) :
  fold_left Z.mul (repeat k n) x = x * k ^ Z.of_nat n.
Proof.
  revert x. induction n as [| n IH]; intros x.
  - simpl. lia.
  - cbn [repeat fold_left]. rewrite IH.
    rewrite Nat2Z.inj_succ, Z.pow_succ_r by lia. lia.
Qed.

Lemma total_words_particle_lists (a m : Z) :
  fold_left Z.mul (map len (particle_lists a m)) 1 =
  effectiveNounSize m * effectiveAdjectiveSize m ^ Z.of_nat (Z.to_nat a).
Proof.
  unfold particle_lists, effectiveNounSize, effectiveAdjectiveSize.
  cbn [map fold_left]. rewrite map_repeat, fold_mul_repeat.
  rewrite !len_effective_list. lia.
Qed.

Lemma normalized_ceiling_range (m : Z) :
  let c := normalized_ceiling m in c <= 0 \/ 3 <= c <= 9.
Proof.
  unfold normalized_ceiling.
  destruct (Z.ltb_spec 0 m), (Z.ltb_spec m 3); cbn [andb];
    try destruct (Z.ltb_spec 9 m); lia.
Qed.

Lemma normalized_ceiling_cases (m : Z) :
  let c := normalized_ceiling m in
  c <= 0 \/ c = 3 \/ c = 4 \/ c = 5 \/ c = 6 \/ c = 7 \/ c = 8 \/ c = 9.
Proof. pose proof (normalized_ceiling_range m). cbv zeta in *. lia. Qed.

Lemma lengths_table_ok (L : list string) (c : Z) :
  3 <= c <= 9 -> lengths_table L c = Ok (count_upto c L).
Proof.
  intros Hc. unfold lengths_table.
  destruct (Z.leb_spec 3 c), (Z.leb_spec c 9); cbn [andb]; try lia.
  reflexivity.
Qed.

(** *** [sort(key=len)]: sorted by length, a permutation, and stable *)

Lemma insert_by_len_perm (w : string) (l : list string) :
  Permutation (insert_by_len w l) (w :: l).
Proof.
  induction l as [| v l IH]; cbn [insert_by_len]; [apply Permutation_refl |].
  destruct (String.length w <=? String.length v)%nat;
    [apply Permutation_refl |].
  apply Permutation_trans with (v :: w :: l);
    [apply perm_skip, IH | apply perm_swap].
Qed.

Lemma sort_by_len_perm (l : list string) : Permutation (sort_by_len l) l.
Proof.
  induction l as [| w l IH]; [apply Permutation_refl |].
  unfold sort_by_len in *. cbn [fold_right].
  apply Permutation_trans with (w :: fold_right insert_by_len [] l);
    [apply insert_by_len_perm | apply perm_skip, IH].
Qed.

Lemma insert_by_len_sorted (w : string) (l : list string) :
  Sorted shorter l -> Sorted shorter (insert_by_len w l).
Proof.
  induction 1 as [| v l Hl IH Hhd]; cbn [insert_by_len].
  - repeat constructor.
  - destruct (Nat.leb_spec (String.length w) (String.length v)) as [Hle | Hgt].
    + constructor; [constructor; assumption |]. constructor. exact Hle.
    + constructor; [exact IH |].
      destruct Hhd as [| u l Hvu]; cbn [insert_by_len].
      * constructor. unfold shorter. lia.
      * destruct (String.length w <=? String.length u)%nat;
          constructor; [unfold shorter; lia | exact Hvu].
Qed.

Lemma sort_by_len_sorted (l : list string) : Sorted shorter (sort_by_len l).
Proof.
  induction l as [| w l IH]; [constructor |].
  unfold sort_by_len in *. cbn [fold_right].
  apply insert_by_len_sorted, IH.
Qed.

Lemma insert_by_len_stable (k : nat) (w : string) (l : list string) :
  filter (fun v => String.length v =? k)%nat (insert_by_len w l) =
  filter (fun v => String.length v =? k)%nat (w :: l).
Proof.
  induction l as [| v l IH]; [reflexivity |].
  cbn [insert_by_len].
  destruct (Nat.leb_spec (String.length w) (String.length v)) as [Hle | Hgt];
    [reflexivity |].
  cbn [filter] in *. rewrite IH.
  destruct (Nat.eqb_spec (String.length w) k) as [Hw | Hw];
    destruct (Nat.eqb_spec (String.length v) k) as [Hv | Hv];
    try reflexivity.
  lia.
Qed.

(** Words of equal length keep the order they had before the sort. *)
Lemma sort_by_len_stable (k : nat) (l : list string) :
  filter (fun v => String.length v =? k)%nat (sort_by_len l) =
  filter (fun v => String.length v =? k)%nat l.
Proof.
  induction l as [| w l IH]; [reflexivity |].
  unfold sort_by_len in *. cbn [fold_right].
  rewrite insert_by_len_stable. cbn [filter]. rewrite IH. reflexivity.
Qed.

(** *** [int(hexdigest(), 16)] is the big-endian value of the digest *)

Lemma hex_digits_of_byte (b : byte) :
  let n := Byte.to_N b in
  hex_value (hex_digit (N.shiftr n 4)) = Some (Z.of_N n / 16) /\
  hex_value (hex_digit (N.land n 15)) = Some (Z.of_N n mod 16).
Proof. destruct b; split; reflexivity. Qed.

Lemma int16_from_hexdigest (d : list byte) (acc : Z) :
  int16_from acc (hexdigest d) =
  Ok (fold_left (fun acc b => 256 * acc + Z.of_N (Byte.to_N b)) d acc).
Proof.
  revert acc. induction d as [| b d IH]; intros acc; [reflexivity |].
  unfold hexdigest in *. cbn [flat_map app string_of_list_ascii int16_from].
  destruct (hex_digits_of_byte b) as [Hhi Hlo]. cbv zeta in Hhi, Hlo.
  rewrite Hhi. cbn [of_option bind]. rewrite Hlo. cbn [of_option bind].
  rewrite IH. cbn [fold_left]. do 2 f_equal.
  pose proof (Z.div_mod (Z.of_N (Byte.to_N b)) 16 ltac:(lia)). lia.
Qed.

Lemma int16_hexdigest (d : list byte) :
  d <> [] -> int16 (hexdigest d) = Ok (big_endian d).
Proof.
  intros Hd. unfold int16, big_endian.
  rewrite <- int16_from_hexdigest.
  destruct d as [| b d]; [congruence |]. reflexivity.
Qed.

Lemma big_endian_nonneg (d : list byte) : 0 <= big_endian d.
Proof.
  unfold big_endian.
  assert (H : forall acc, 0 <= acc ->
            0 <= fold_left (fun acc b => 256 * acc + Z.of_N (Byte.to_N b)) d acc).
  { induction d as [| b d IH]; intros acc Hacc; cbn [fold_left]; [exact Hacc |].
    apply IH. lia. }
  apply H. lia.
Qed.

(** *** The selection loop *)

(** As long as the index stays below [2 ^ 53] the loop is the mixed-radix
    decoding with floor division. *)
Lemma select_words_mixed_radix (lists : list (list string)) :
  Forall (fun L => 0 < len L < 2 ^ 53) lists ->
  forall index acc,
    0 <= index < 2 ^ 53 ->
    select_words lists index acc = Ok (acc ++ mixed_radix lists index).
Proof.
  induction 1 as [| L rest HL Hrest IH]; intros index acc Hi.
  - cbn [select_words mixed_radix]. rewrite app_nil_r. reflexivity.
  - cbn [select_words mixed_radix].
    unfold mod_. destruct (Z.eqb_spec (len L) 0) as [E | _]; [lia |].
    cbn [bind].
    pose proof (Z.mod_pos_bound index (len L) ltac:(lia)) as Hm.
    unfold getitem.
    destruct (Z.ltb_spec (index mod len L) 0) as [? | _]; [lia |].
    destruct (Z.ltb_spec (index mod len L) 0) as [? | _]; [lia |].
    assert (Hlt : (Z.to_nat (index mod len L) < List.length L)%nat)
      by (unfold len in Hm |- *; lia).
    destruct (nth_error L (Z.to_nat (index mod len L))) as [w |] eqn:Hw.
    2:{ apply nth_error_None in Hw. lia. }
    cbn [of_option bind].
    rewrite (nth_error_nth _ _ EmptyString Hw).
    destruct (PyFacts.truediv_exact index (len L) Hi HL) as (f & Hf & Hint).
    rewrite Hf. cbn [bind]. rewrite Hint.
    rewrite IH.
    + rewrite <- app_assoc. reflexivity.
    + split; [apply Z.div_pos; lia |].
      apply Z.le_lt_trans with index; [| lia].
      apply Z.div_le_upper_bound; [lia |].
      rewrite <- (Z.mul_1_l index) at 1. apply Z.mul_le_mono_nonneg_r; lia.
Qed.

Lemma mixed_radix_length (lists : list (list string)) (index : Z) :
  List.length (mixed_radix lists index) = List.length lists.
Proof.
  revert index. induction lists as [| L rest IH]; intros index;
    cbn [mixed_radix List.length]; [reflexivity |].
  rewrite IH. reflexivity.
Qed.

(** *** The sizes of the lists under each ceiling *)

Lemma list_sizes : len NOUNS = 554 /\ len ADJECTIVES = 642.
Proof. split; vm_compute; reflexivity. Qed.

Lemma noun_sizes :
  count_upto 3 NOUNS = 48%nat /\ count_upto 4 NOUNS = 225%nat /\
  count_upto 5 NOUNS = 390%nat /\ count_upto 6 NOUNS = 476%nat /\
  count_upto 7 NOUNS = 522%nat /\ count_upto 8 NOUNS = 544%nat /\
  count_upto 9 NOUNS = 552%nat.
Proof. repeat split; vm_compute; reflexivity. Qed.

Lemma adjective_sizes :
  count_upto 3 ADJECTIVES = 4%nat /\ count_upto 4 ADJECTIVES = 24%nat /\
  count_upto 5 ADJECTIVES = 71%nat /\ count_upto 6 ADJECTIVES = 179%nat /\
  count_upto 7 ADJECTIVES = 363%nat /\ count_upto 8 ADJECTIVES = 509%nat /\
  count_upto 9 ADJECTIVES = 603%nat.
Proof. repeat split; vm_compute; reflexivity. Qed.

Lemma effective_size_bounds (L : list string) (c : Z) :
  effective_size L c <= len L.
Proof.
  unfold effective_size, len. pose proof (count_upto_le c L).
  destruct (0 <? c); lia.
Qed.

Lemma effective_size_limited (L : list string) (c : Z) :
  0 < c -> effective_size L c = Z.of_nat (count_upto c L).
Proof.
  intros Hc. unfold effective_size.
  destruct (Z.ltb_spec 0 c); [reflexivity | lia].
Qed.

Lemma effective_size_unlimited (L : list string) (c : Z) :
  c <= 0 -> effective_size L c = len L.
Proof.
  intros Hc. unfold effective_size.
  destruct (Z.ltb_spec 0 c); [lia | reflexivity].
Qed.

Lemma effective_sizes_positive (m : Z) :
  0 < effectiveNounSize m <= 554 /\ 0 < effectiveAdjectiveSize m <= 642.
Proof.
  unfold effectiveNounSize, effectiveAdjectiveSize.
  destruct list_sizes as [Ln La].
  destruct noun_sizes as (N3 & N4 & N5 & N6 & N7 & N8 & N9).
  destruct adjective_sizes as (A3 & A4 & A5 & A6 & A7 & A8 & A9).
  destruct (normalized_ceiling_cases m) as [H | [H | [H | [H | [H | [H | [H | H]]]]]]];
    cbv zeta in H.
  - rewrite !effective_size_unlimited by exact H. lia.
  - rewrite H, !effective_size_limited by lia. lia.
  - rewrite H, !effective_size_limited by lia. lia.
  - rewrite H, !effective_size_limited by lia. lia.
  - rewrite H, !effective_size_limited by lia. lia.
  - rewrite H, !effective_size_limited by lia. lia.
  - rewrite H, !effective_size_limited by lia. lia.
  - rewrite H, !effective_size_limited by lia. lia.
Qed.

(** *** [str] of an integer *)

Lemma utf8_plain (l : list ascii) :
  Forall plain_char l -> flat_map utf8_char l = map byte_of_ascii l.
Proof.
  induction 1 as [| c l Hc _ IH]; [reflexivity |].
  cbn [flat_map map]. rewrite IH. unfold utf8_char.
  unfold plain_char in Hc.
  destruct (N.ltb_spec (N_of_ascii c) 128); [reflexivity | lia].
Qed.

Lemma plain_string_of_uint (d : Decimal.uint) :
  Forall plain_char (list_ascii_of_string (NilEmpty.string_of_uint d)).
Proof.
  induction d; cbn [NilEmpty.string_of_uint list_ascii_of_string];
    constructor; try assumption; unfold plain_char; vm_compute; reflexivity.
Qed.

Lemma plain_str (n : Z) :
  Forall plain_char (list_ascii_of_string (decimal n)).
Proof.
  unfold decimal, NilZero.string_of_int.
  destruct (Z.to_int n) as [d | d]; unfold NilZero.string_of_uint.
  - destruct d; try apply plain_string_of_uint.
    constructor; [vm_compute; reflexivity | constructor].
  - cbn [list_ascii_of_string]. constructor; [vm_compute; reflexivity |].
    destruct d; try apply plain_string_of_uint.
    constructor; [vm_compute; reflexivity | constructor].
Qed.

Lemma encode_utf8_str (n : Z) :
  encode_utf8 (decimal n) =
  map byte_of_ascii (list_ascii_of_string (decimal n)).
Proof. unfold encode_utf8. apply utf8_plain, plain_str. Qed.

Lemma str_roundtrip (n : Z) :
  option_map Z.of_int (NilZero.int_of_string (decimal n)) = Some n.
Proof.
  unfold decimal. rewrite NilZero.isi.
  - cbn [option_map]. rewrite DecimalZ.of_to. reflexivity.
  - destruct n; cbn [Z.to_int]; intros E; inversion E as [E'].
    exact (DecimalPos.Unsigned.to_uint_nonnil _ E').
  - destruct n; cbn [Z.to_int]; intros E; inversion E as [E'].
    exact (DecimalPos.Unsigned.to_uint_nonnil _ E').
Qed.

Lemma str_within_limit (n : Z) :
  Z.of_nat (String.length (decimal (Z.abs n))) <= int_max_str_digits ->
  str n = Ok (decimal n).
Proof.
  intros Hn. unfold str.
  destruct (Z.ltb_spec int_max_str_digits
              (Z.of_nat (String.length (decimal (Z.abs n)))));
    [lia | reflexivity].
Qed.

Lemma str_beyond_limit (n : Z) :
  int_max_str_digits < Z.of_nat (String.length (decimal (Z.abs n))) ->
  str n = Raise ValueError.
Proof.
  intros Hn. unfold str.
  destruct (Z.ltb_spec int_max_str_digits
              (Z.of_nat (String.length (decimal (Z.abs n)))));
    [reflexivity | lia].
Qed.

(** An integer is below the power of ten of its number of digits, so an
    integer that reaches [10 ^ int_max_str_digits] is beyond the limit. *)
Lemma usize_revapp (d d' : Decimal.uint) :
  Unsigned.usize (Decimal.revapp d d') =
  (Unsigned.usize d + Unsigned.usize d')%N.
Proof.
  revert d'. induction d; intros d'; cbn [Decimal.revapp Unsigned.usize];
    try (rewrite IHd; cbn [Unsigned.usize]; lia).
  reflexivity.
Qed.

Lemma of_lu_bound (d : Decimal.uint) :
  (Unsigned.of_lu d < 10 ^ Unsigned.usize d)%N.
Proof.
  induction d; cbn [Unsigned.of_lu Unsigned.usize];
    try (rewrite N.pow_succ_r'; lia).
  rewrite N.pow_0_r. lia.
Qed.

Lemma length_string_of_uint (d : Decimal.uint) :
  N.of_nat (String.length (NilEmpty.string_of_uint d)) = Unsigned.usize d.
Proof.
  induction d; cbn [NilEmpty.string_of_uint String.length Unsigned.usize];
    try (rewrite Nat2N.inj_succ, IHd; reflexivity).
  reflexivity.
Qed.

Lemma pos_digits_bound (p : positive) :
  Z.pos p < 10 ^ Z.of_nat (String.length (decimal (Z.pos p))).
Proof.
  unfold decimal. cbn [Z.to_int NilZero.string_of_int].
  unfold NilZero.string_of_uint.
  pose proof (Unsigned.to_uint_nonnil p) as Hnil.
  pose proof (Unsigned.of_to p) as Hof.
  set (d := Pos.to_uint p) in *.
  assert (Hs : (match d with
                | Decimal.Nil => "0"%string
                | _ => NilEmpty.string_of_uint d
                end) = NilEmpty.string_of_uint d)
    by (destruct d; [congruence | reflexivity ..]).
  rewrite Hs. rewrite Unsigned.of_uint_alt in Hof.
  pose proof (of_lu_bound (Decimal.rev d)) as Hb.
  unfold Decimal.rev in Hb at 2. rewrite usize_revapp in Hb.
  cbn [Unsigned.usize] in Hb. rewrite N.add_0_r in Hb.
  rewrite Hof, <- length_string_of_uint in Hb.
  apply N2Z.inj_lt in Hb. rewrite N2Z.inj_pow in Hb.
  rewrite nat_N_Z in Hb. exact Hb.
Qed.

Lemma digits_bound (n : Z) :
  Z.abs n < 10 ^ Z.of_nat (String.length (decimal (Z.abs n))).
Proof.
  destruct n as [| p | p]; cbn [Z.abs].
  - reflexivity.
  - apply pos_digits_bound.
  - apply pos_digits_bound.
Qed.

Lemma beyond_limit (n : Z) :
  10 ^ int_max_str_digits <= Z.abs n ->
  int_max_str_digits < Z.of_nat (String.length (decimal (Z.abs n))).
Proof.
  intros Hn. pose proof (digits_bound n) as Hb.
  destruct (Z.lt_ge_cases int_max_str_digits
              (Z.of_nat (String.length (decimal (Z.abs n))))) as [Hlt | Hge];
    [exact Hlt | exfalso].
  assert (Hp : 10 ^ Z.of_nat (String.length (decimal (Z.abs n)))
               <= 10 ^ int_max_str_digits).
  { apply Z.pow_le_mono_r; [reflexivity | exact Hge]. }
  eapply Z.lt_irrefl, Z.lt_le_trans; [exact Hb |].
  eapply Z.le_trans; [exact Hp | exact Hn].
Qed.

Lemma conversion_convertible (obj : pyobj) :
  convertible obj -> conversion obj = Ok tt.
Proof.
  destruct obj as [| n | s | b]; try reflexivity.
  intros Hn. unfold conversion. rewrite (str_within_limit n Hn).
  reflexivity.
Qed.

(** *** Mixed-radix decoding *)

Lemma mod_mul_digit (x l t : Z) :
  0 < l -> 0 < t ->
  (x mod (l * t)) mod l = x mod l /\ (x mod (l * t)) / l = (x / l) mod t.
Proof.
  intros Hl Ht. rewrite Z.rem_mul_r by lia.
  pose proof (Z.mod_pos_bound x l Hl) as Hx.
  split.
  - rewrite (Z.mul_comm l ((x / l) mod t)), Z.mod_add by lia.
    apply Z.mod_small. exact Hx.
  - symmetry. apply Z.div_unique with (r := x mod l); lia.
Qed.

Lemma total_words_pos (lists : list (list string)) :
  Forall (fun L => 0 < len L) lists ->
  0 < fold_left Z.mul (map len lists) 1.
Proof.
  induction 1 as [| L rest HL _ IH]; cbn [map fold_left]; [lia |].
  rewrite fold_mul_scale. apply Z.mul_pos_pos; lia.
Qed.

(** Reducing the hash modulo the number of codenames does not change the
    words that are decoded from it. *)
Lemma mixed_radix_mod (lists : list (list string)) :
  Forall (fun L => 0 < len L) lists ->
  forall x,
    mixed_radix lists (x mod fold_left Z.mul (map len lists) 1) =
    mixed_radix lists x.
Proof.
  induction 1 as [| L rest HL Hrest IH]; intros x; [reflexivity |].
  cbn [map fold_left mixed_radix]. rewrite fold_mul_scale, Z.mul_1_l.
  pose proof (total_words_pos rest Hrest) as Ht.
  destruct (mod_mul_digit x (len L) _ HL Ht) as [E1 E2].
  rewrite E1, E2, IH. reflexivity.
Qed.

(** One more list at the end adds one word at the end. *)
Lemma mixed_radix_snoc (lists : list (list string)) (L : list string) :
  forall x, exists y,
    mixed_radix (lists ++ [L]) x =
    mixed_radix lists x ++ [nth (Z.to_nat (y mod len L)) L EmptyString].
Proof.
  induction lists as [| L0 rest IH]; intros x.
  - exists x. reflexivity.
  - destruct (IH (x / len L0)) as [y Hy]. exists y.
    cbn [app mixed_radix]. rewrite Hy. reflexivity.
Qed.

Lemma mixed_radix_Forall (P : string -> Prop) (lists : list (list string)) :
  Forall (fun L => 0 < len L /\ Forall P L) lists ->
  forall x, Forall P (mixed_radix lists x).
Proof.
  induction 1 as [| L rest [HL HP] _ IH]; intros x; cbn [mixed_radix];
    constructor; [| apply IH].
  rewrite Forall_forall in HP. apply HP, nth_In.
  pose proof (Z.mod_pos_bound x (len L) HL). unfold len in *. lia.
Qed.

(** Whatever the index, the loop only returns words of the lists. *)
Lemma select_words_Forall (P : string -> Prop) (lists : list (list string)) :
  Forall (Forall P) lists ->
  forall index acc ws,
    Forall P acc ->
    select_words lists index acc = Ok ws -> Forall P ws.
Proof.
  induction 1 as [| L rest HL _ IH]; intros index acc ws Hacc Hsel.
  - cbn [select_words] in Hsel. injection Hsel as <-. exact Hacc.
  - cbn [select_words] in Hsel.
    destruct (mod_ index (len L)) as [i | e]; cbn [bind] in Hsel;
      [| discriminate].
    destruct (getitem L i) as [w | e] eqn:Hw; cbn [bind] in Hsel;
      [| discriminate].
    destruct (truediv index (len L)) as [q | e]; cbn [bind] in Hsel;
      [| discriminate].
    apply IH in Hsel; [exact Hsel |].
    apply Forall_app. split; [exact Hacc |]. constructor; [| constructor].
    unfold getitem in Hw.
    destruct (_ <? 0); [discriminate |].
    destruct (nth_error L _) as [w' |] eqn:Hn; cbn [of_option] in Hw;
      [| discriminate].
    injection Hw as <-. rewrite Forall_forall in HL.
    apply HL. eapply nth_error_In. exact Hn.
Qed.

(** *** The words *)

Lemma Forall_of_forallb {A} (f : A -> bool) (P : A -> Prop) (l : list A) :
  (forall x, f x = true -> P x) -> forallb f l = true -> Forall P l.
Proof.
  intros HfP Hall. rewrite forallb_forall in Hall.
  apply Forall_forall. intros x Hx. apply HfP, Hall, Hx.
Qed.

Lemma adjectives_at_least_3 : Forall (at_least 3) ADJECTIVES.
Proof.
  apply (Forall_of_forallb (fun w => (3 <=? String.length w)%nat)).
  - intros w Hw. apply Nat.leb_le. exact Hw.
  - vm_compute. reflexivity.
Qed.

Lemma nouns_at_least_2 : Forall (at_least 2) NOUNS.
Proof.
  apply (Forall_of_forallb (fun w => (2 <=? String.length w)%nat)).
  - intros w Hw. apply Nat.leb_le. exact Hw.
  - vm_compute. reflexivity.
Qed.

Lemma short_nouns :
  Forall (fun w => ~ at_least 3 w -> w = "ox"%string) NOUNS.
Proof.
  apply (Forall_of_forallb
           (fun w => (3 <=? String.length w)%nat || String.eqb w "ox")).
  - intros w Hw Hshort. apply orb_true_iff in Hw. destruct Hw as [Hw | Hw].
    + apply Nat.leb_le in Hw. contradiction.
    + apply String.eqb_eq. exact Hw.
  - vm_compute. reflexivity.
Qed.

Lemma Forall_firstn {A} (P : A -> Prop) (k : nat) (l : list A) :
  Forall P l -> Forall P (firstn k l).
Proof.
  intros H. revert k. induction H as [| x l Hx _ IH]; intros [| k];
    cbn [firstn]; constructor; auto.
Qed.

Lemma Forall_effective_list (P : string -> Prop) (L : list string) (c : Z) :
  Forall P L -> Forall P (effective_list L c).
Proof.
  intros H. unfold effective_list.
  destruct (0 <? c); [apply Forall_firstn |]; exact H.
Qed.

Lemma words_at_least_2 : Forall (at_least 2) ADJECTIVES /\ Forall (at_least 2) NOUNS.
Proof.
  split; [| exact nouns_at_least_2].
  eapply Forall_impl; [| exact adjectives_at_least_3].
  unfold at_least. intros w Hw. lia.
Qed.

Lemma particle_lists_Forall (P : string -> Prop) (a m : Z) :
  Forall P NOUNS -> Forall P ADJECTIVES ->
  Forall (Forall P) (particle_lists a m).
Proof.
  intros Hn Ha. unfold particle_lists. constructor.
  - apply Forall_effective_list, Hn.
  - apply Forall_forall. intros L HL. apply repeat_spec in HL. subst L.
    apply Forall_effective_list, Ha.
Qed.

Lemma particle_lists_sizes (a m : Z) :
  Forall (fun L => 0 < len L < 2 ^ 53) (particle_lists a m).
Proof.
  destruct (effective_sizes_positive m) as [Hn Ha].
  unfold effectiveNounSize, effectiveAdjectiveSize in *.
  unfold particle_lists. constructor.
  - rewrite len_effective_list. lia.
  - apply Forall_forall. intros L HL. apply repeat_spec in HL. subst L.
    rewrite len_effective_list. lia.
Qed.

Lemma particle_lists_succ (a m : Z) :
  0 <= a ->
  particle_lists (a + 1) m =
  particle_lists a m ++ [effective_list ADJECTIVES (normalized_ceiling m)].
Proof.
  intros Ha. unfold particle_lists.
  replace (Z.to_nat (a + 1)) with (S (Z.to_nat a)) by lia.
  cbn [repeat]. rewrite repeat_cons. reflexivity.
Qed.

(** *** Strings *)

Lemma append_assoc (s t u : string) :
  String.append (String.append s t) u = String.append s (String.append t u).
Proof.
  induction s as [| c s IH]; cbn [String.append]; [reflexivity |].
  rewrite IH. reflexivity.
Qed.

Lemma join_cons (sep w : string) (ws : list string) :
  ws <> [] ->
  join sep (w :: ws) = String.append (String.append w sep) (join sep ws).
Proof.
  intros Hws. destruct ws as [| v ws]; [congruence |].
  cbn [join]. rewrite append_assoc. reflexivity.
Qed.

(** *** The specification's words *)

Lemma spec_words_eq (d : list byte) (a m : Z) :
  spec_words d a m =
  rev (mixed_radix (particle_lists a m) (big_endian d * 36413321723440003717)).
Proof.
  unfold spec_words. cbv zeta. rewrite mixed_radix_mod; [reflexivity |].
  eapply Forall_impl; [| apply particle_lists_sizes].
  cbv beta. intros L HL. lia.
Qed.

Lemma spec_words_length (d : list byte) (a m : Z) :
  List.length (spec_words d a m) = S (Z.to_nat a).
Proof.
  rewrite spec_words_eq, length_rev, mixed_radix_length.
  unfold particle_lists. cbn [List.length]. rewrite repeat_length. reflexivity.
Qed.

Lemma spec_words_Forall (P : string -> Prop) (d : list byte) (a m : Z) :
  Forall P NOUNS -> Forall P ADJECTIVES -> Forall P (spec_words d a m).
Proof.
  intros Hn Ha. rewrite spec_words_eq. apply Forall_rev.
  apply mixed_radix_Forall.
  pose proof (particle_lists_sizes a m) as Hs.
  pose proof (particle_lists_Forall P a m Hn Ha) as Hp.
  rewrite Forall_forall in *. intros L HL. split; [apply Hs, HL | apply Hp, HL].
Qed.

(** One more adjective puts one word in front of the words already there. *)
Lemma spec_words_succ (d : list byte) (a m : Z) :
  0 <= a ->
  exists w, In w ADJECTIVES /\ spec_words d (a + 1) m = w :: spec_words d a m.
Proof.
  intros Ha. rewrite !spec_words_eq, particle_lists_succ by exact Ha.
  set (A := effective_list ADJECTIVES (normalized_ceiling m)).
  destruct (mixed_radix_snoc (particle_lists a m) A
              (big_endian d * 36413321723440003717)) as [y Hy].
  rewrite Hy, rev_app_distr. cbn [rev app]. eexists. split; [| reflexivity].
  assert (HA : Forall (fun w => In w ADJECTIVES) A).
  { apply Forall_effective_list, Forall_forall. auto. }
  rewrite Forall_forall in HA. apply HA, nth_In.
  destruct (effective_sizes_positive m) as [_ Hk].
  unfold effectiveAdjectiveSize in Hk. rewrite <- len_effective_list in Hk.
  fold A in Hk. pose proof (Z.mod_pos_bound y (len A) ltac:(lia)).
  unfold len in *. lia.
Qed.

(** With no adjective the only word is the noun at [objHash mod
    effectiveNounSize]. *)
Lemma spec_words_noun (d : list byte) (m : Z) :
  exists noun, In noun NOUNS /\ spec_words d 0 m = [noun].
Proof.
  rewrite spec_words_eq. unfold particle_lists.
  change (Z.to_nat 0) with O. cbn [repeat mixed_radix rev app].
  set (N := effective_list NOUNS (normalized_ceiling m)).
  eexists. split; [| reflexivity].
  assert (HN : Forall (fun w => In w NOUNS) N).
  { apply Forall_effective_list, Forall_forall. auto. }
  rewrite Forall_forall in HN. apply HN, nth_In.
  destruct (effective_sizes_positive m) as [Hn _].
  unfold effectiveNounSize in Hn. rewrite <- len_effective_list in Hn.
  fold N in Hn.
  pose proof (Z.mod_pos_bound (big_endian d * 36413321723440003717) (len N)
                ltac:(lia)).
  unfold len in *. lia.
Qed.

(** *** Capitalisation *)

Lemma mapM_capitalize_word (ws : list string) :
  Forall (at_least 2) ws ->
  mapM capitalize_word ws = Ok (map capitalized ws).
Proof.
  induction 1 as [| w ws Hw _ IH]; [reflexivity |].
  cbn [mapM map]. rewrite IH.
  destruct w as [| c s]; [unfold at_least in Hw; cbn in Hw; lia |].
  reflexivity.
Qed.

End Facts.

(** ** The functions against the specification *)

Section Properties.

Variable hashlib_new : string -> option (list byte -> list byte).

Local Opaque NOUNS ADJECTIVES.

Lemma two_step_normalization (m : Z) :
  (let m1 := if (0 <? m) && (m <? 3) then 3 else m in
   if 9 <? m1 then 0 else m1) = normalized_ceiling m.
Proof.
  unfold normalized_ceiling. cbv zeta.
  destruct ((0 <? m) && (m <? 3)); reflexivity.
Qed.

(** The word lists the function prepares are the specification's particle
    lists. *)
Lemma prepared_particles (a c : Z) :
  c <= 0 \/ 3 <= c <= 9 ->
  (if 0 <? c then
     n <- NOUNS_LENGTHS c ;;
     adjs <- Py.mapM (fun _ => k <- ADJECTIVES_LENGTHS c ;;
                               Py.Ok (Py.slice_to ADJECTIVES k))
                     (Py.range 0 a) ;;
     Py.Ok (Py.slice_to NOUNS n :: adjs)
   else Py.Ok ([NOUNS] ++ map (fun _ => ADJECTIVES) (Py.range 0 a))) =
  Py.Ok (effective_list NOUNS c
           :: repeat (effective_list ADJECTIVES c) (Z.to_nat a)).
Proof.
  intros Hc. unfold effective_list.
  destruct (Z.ltb_spec 0 c) as [Hpos | Hneg].
  - unfold NOUNS_LENGTHS, ADJECTIVES_LENGTHS.
    rewrite !Facts.lengths_table_ok by lia. cbn [Py.bind].
    rewrite Facts.mapM_const. cbn [Py.bind].
    rewrite Facts.map_const_range. reflexivity.
  - cbn [app]. rewrite Facts.map_const_range. reflexivity.
Qed.

(** [codenamize_particles], with the preparation of the lists folded into
    [particle_lists]. *)
Lemma codenamize_particles_eq (obj : pyobj) (a m : Z) (h : string) :
  codenamize_particles hashlib_new obj a m h =
  let lists := particle_lists a m in
  let total_words := fold_left Z.mul (map Py.len lists) 1 in
  match obj with
  | PyNone => Py.Ok (Space total_words)
  | _ =>
      _ <- conversion obj ;;
      hh <- Py.of_option Py.ValueError (hashlib_new h) ;;
      d <- Py.int16 (Py.hexdigest (hh (object_bytes obj))) ;;
      index <- Py.mod_ (d * PRIME_FACTOR) total_words ;;
      ws <- select_words lists index [] ;;
      Py.Ok (Words (rev ws))
  end.
Proof.
  unfold codenamize_particles. cbv zeta.
  pose proof (two_step_normalization m) as Hn. cbv zeta in Hn. rewrite Hn.
  rewrite (prepared_particles a _ (Facts.normalized_ceiling_range m)).
  cbn [Py.bind]. unfold particle_lists.
  destruct obj as [| n | s | b]; try reflexivity.
  unfold conversion, object_bytes, Py.str.
  destruct (Py.int_max_str_digits
              <? Z.of_nat (String.length (Py.decimal (Z.abs n))));
    reflexivity.
Qed.

(** The space size, for every adjective count. *)
Lemma space_size (a m : Z) (h : string) :
  codenamize_particles hashlib_new PyNone a m h =
  Py.Ok (Space (effectiveNounSize m
                * effectiveAdjectiveSize m ^ Z.of_nat (Z.to_nat a))).
Proof.
  rewrite codenamize_particles_eq. cbv zeta.
  rewrite Facts.total_words_particle_lists. reflexivity.
Qed.

(** C2: with no object, [codenamize_particles] returns an integer, the
    product of the effective noun size and the effective adjective size
    raised to the adjective count (so the noun size alone at count 0), and
    [codenamize_space] returns the same value. *)
Theorem C2_space_is_noun_size_times_adjective_power (a m : Z) (h : string) :
  0 <= a ->
  codenamize_particles hashlib_new PyNone a m h =
    Py.Ok (Space (effectiveNounSize m * effectiveAdjectiveSize m ^ a)) /\
  codenamize_space hashlib_new a m h =
    Py.Ok (Space (effectiveNounSize m * effectiveAdjectiveSize m ^ a)) /\
  (a = 0 ->
   codenamize_particles hashlib_new PyNone a m h =
     Py.Ok (Space (effectiveNounSize m))).
Proof.
  intros Ha. unfold codenamize_space. rewrite space_size, Z2Nat.id by exact Ha.
  split; [reflexivity |]. split; [reflexivity |].
  intros ->. rewrite Z.pow_0_r, Z.mul_1_r. reflexivity.
Qed.

(** C3: the documented space sizes for ceiling 5 (742, 241150 and
    78373750) are not those of the word lists: the function returns 390,
    27690 and 1965990. *)
Theorem C3_space_sizes_at_ceiling_5 (h : string) :
  codenamize_space hashlib_new 0 5 h = Py.Ok (Space 390) /\
  codenamize_space hashlib_new 1 5 h = Py.Ok (Space 27690) /\
  codenamize_space hashlib_new 2 5 h = Py.Ok (Space 1965990).
Proof.
  unfold codenamize_space. rewrite !space_size.
  assert (Hn : effectiveNounSize 5 = 390) by (vm_compute; reflexivity).
  assert (Ha : effectiveAdjectiveSize 5 = 71) by (vm_compute; reflexivity).
  rewrite Hn, Ha. repeat split; reflexivity.
Qed.

(** C9: the space size is the same under any two algorithm names, known to
    [hashlib] or not, and its computation does not fail. *)
Theorem C9_space_ignores_hash_algorithm (a m : Z) (h1 h2 : string) :
  codenamize_space hashlib_new a m h1 = codenamize_space hashlib_new a m h2 /\
  exists n, 0 < n /\ codenamize_space hashlib_new a m h1 = Py.Ok (Space n).
Proof.
  unfold codenamize_space. rewrite !space_size. split; [reflexivity |].
  eexists. split; [| reflexivity].
  destruct (Facts.effective_sizes_positive m) as [[Hn _] [Ha _]].
  apply Z.mul_pos_pos; [exact Hn |].
  apply Z.pow_pos_nonneg; lia.
Qed.

Lemma particle_lists_normalized (a m m' : Z) :
  normalized_ceiling m = normalized_ceiling m' ->
  particle_lists a m = particle_lists a m'.
Proof. intros H. unfold particle_lists. rewrite H. reflexivity. Qed.

Lemma codenamize_particles_normalized (obj : pyobj) (a m m' : Z) (h : string) :
  normalized_ceiling m = normalized_ceiling m' ->
  codenamize_particles hashlib_new obj a m h =
  codenamize_particles hashlib_new obj a m' h.
Proof.
  intros H. rewrite !codenamize_particles_eq.
  rewrite (particle_lists_normalized a m m' H). reflexivity.
Qed.

(** C6: ceiling 1 gives what ceiling 3 gives and ceiling 10 what ceiling 0
    gives, for the space size and for the words of an object; so does any
    ceiling strictly between 0 and 3, and any ceiling above 9. *)
Theorem C6_ceiling_normalization (obj : pyobj) (a : Z) (h : string) :
  (codenamize_space hashlib_new a 1 h = codenamize_space hashlib_new a 3 h /\
   codenamize_space hashlib_new a 10 h = codenamize_space hashlib_new a 0 h) /\
  (codenamize_particles hashlib_new obj a 1 h =
     codenamize_particles hashlib_new obj a 3 h /\
   codenamize_particles hashlib_new obj a 10 h =
     codenamize_particles hashlib_new obj a 0 h) /\
  (forall m, 0 < m < 3 ->
     codenamize_particles hashlib_new obj a m h =
     codenamize_particles hashlib_new obj a 3 h) /\
  (forall m, 9 < m ->
     codenamize_particles hashlib_new obj a m h =
     codenamize_particles hashlib_new obj a 0 h).
Proof.
  assert (Hlow : forall m, 0 < m < 3 ->
                 normalized_ceiling m = normalized_ceiling 3).
  { intros m Hm. unfold normalized_ceiling.
    destruct (Z.ltb_spec 0 m), (Z.ltb_spec m 3); try lia. reflexivity. }
  assert (Hhigh : forall m, 9 < m ->
                  normalized_ceiling m = normalized_ceiling 0).
  { intros m Hm. unfold normalized_ceiling.
    destruct (Z.ltb_spec 0 m), (Z.ltb_spec m 3), (Z.ltb_spec 9 m); try lia;
      reflexivity. }
  unfold codenamize_space.
  repeat split; intros;
    apply codenamize_particles_normalized; auto; try (apply Hlow; lia);
    try (apply Hhigh; lia).
Qed.

(** An integer of more digits than the limit raises at the conversion,
    before the algorithm is looked up. *)
Lemma integer_beyond_limit_raises (n a m : Z) (j : option string) (c : bool)
    (h : string) :
  Py.int_max_str_digits < Z.of_nat (String.length (Py.decimal (Z.abs n))) ->
  codenamize_particles hashlib_new (PyInt n) a m h = Py.Raise Py.ValueError /\
  codenamize hashlib_new (PyInt n) a m j c h = Py.Raise Py.ValueError.
Proof.
  intros Hn.
  assert (E : codenamize_particles hashlib_new (PyInt n) a m h =
              Py.Raise Py.ValueError).
  { rewrite codenamize_particles_eq. cbv zeta. unfold conversion.
    rewrite (Facts.str_beyond_limit n Hn). reflexivity. }
  split; [exact E |]. unfold codenamize. rewrite E. reflexivity.
Qed.

(** C5, as the code is: an integer whose decimal numeral has at most 4300
    digits, the limit of [str], is hashed as that numeral: its codename is
    the codename of the text, and of the bytes of the text, which are its
    characters (a sign and decimal digits) one byte each; reading the text
    back as a decimal numeral gives the integer.  An integer of more digits
    raises [ValueError] at the conversion. *)
Theorem C5_integer_as_decimal_string (n a m : Z) (j : option string)
    (c : bool) (h : string) :
  (Z.of_nat (String.length (Py.decimal (Z.abs n))) <= Py.int_max_str_digits ->
   codenamize hashlib_new (PyInt n) a m j c h =
     codenamize hashlib_new (PyText (Py.decimal n)) a m j c h /\
   codenamize hashlib_new (PyInt n) a m j c h =
     codenamize hashlib_new (PyBytes (Py.encode_utf8 (Py.decimal n)))
       a m j c h) /\
  (Py.int_max_str_digits < Z.of_nat (String.length (Py.decimal (Z.abs n))) ->
   codenamize_particles hashlib_new (PyInt n) a m h = Py.Raise Py.ValueError /\
   codenamize hashlib_new (PyInt n) a m j c h = Py.Raise Py.ValueError) /\
  Py.encode_utf8 (Py.decimal n) =
    map byte_of_ascii (list_ascii_of_string (Py.decimal n)) /\
  option_map Z.of_int (NilZero.int_of_string (Py.decimal n)) = Some n.
Proof.
  split; [| split; [| split]].
  - intros Hn. unfold codenamize. rewrite !codenamize_particles_eq.
    cbv zeta. unfold conversion.
    rewrite (Facts.str_within_limit n Hn). cbn [Py.bind].
    split; reflexivity.
  - apply integer_beyond_limit_raises.
  - apply Facts.encode_utf8_str.
  - apply Facts.str_roundtrip.
Qed.

(** While the number of codenames is at most [2 ^ 53], the words returned
    for an object are the specification's: big-endian digest times the
    multiplier, reduced modulo the number of codenames, decoded in mixed
    radix and reversed. *)
Lemma codenamize_particles_below_2_53 (obj : pyobj) (a m : Z) (h : string)
    (H : list byte -> list byte) :
  obj <> PyNone ->
  convertible obj ->
  hashlib_new h = Some H ->
  H (object_bytes obj) <> [] ->
  effectiveNounSize m * effectiveAdjectiveSize m ^ Z.of_nat (Z.to_nat a)
    <= 2 ^ 53 ->
  codenamize_particles hashlib_new obj a m h =
  Py.Ok (Words (spec_words (H (object_bytes obj)) a m)).
Proof.
  intros Hobj Hconv Hh Hd Hsmall.
  rewrite codenamize_particles_eq. cbv zeta.
  rewrite (Facts.conversion_convertible obj Hconv). cbn [Py.bind].
  rewrite <- Facts.total_words_particle_lists in Hsmall.
  assert (Hpos : 0 < fold_left Z.mul (map Py.len (particle_lists a m)) 1).
  { apply Facts.total_words_pos.
    eapply Forall_impl; [| apply Facts.particle_lists_sizes].
    cbv beta. intros L HL. lia. }
  unfold spec_words. cbv zeta.
  set (total := fold_left Z.mul (map Py.len (particle_lists a m)) 1) in *.
  assert (Hrun :
    (hh <- Py.of_option Py.ValueError (hashlib_new h) ;;
     d <- Py.int16 (Py.hexdigest (hh (object_bytes obj))) ;;
     index <- Py.mod_ (d * PRIME_FACTOR) total ;;
     ws <- select_words (particle_lists a m) index [] ;;
     Py.Ok (Words (rev ws))) =
    Py.Ok (Words (rev (mixed_radix (particle_lists a m)
      ((big_endian (H (object_bytes obj)) * 36413321723440003717)
         mod total))))).
  { rewrite Hh. cbn [Py.of_option Py.bind].
    rewrite Facts.int16_hexdigest by exact Hd. cbn [Py.bind].
    unfold Py.mod_, PRIME_FACTOR.
    destruct (Z.eqb_spec total 0) as [E | _]; [lia |]. cbn [Py.bind].
    rewrite Facts.select_words_mixed_radix.
    - cbn [Py.bind app]. reflexivity.
    - apply Facts.particle_lists_sizes.
    - pose proof (Z.mod_pos_bound
        (big_endian (H (object_bytes obj)) * 36413321723440003717) total Hpos).
      lia. }
  destruct obj; [congruence | exact Hrun | exact Hrun | exact Hrun].
Qed.

Lemma small_spaces (m : Z) :
  effectiveNounSize m * effectiveAdjectiveSize m ^ Z.of_nat (Z.to_nat 0)
    <= 2 ^ 53 /\
  effectiveNounSize m * effectiveAdjectiveSize m ^ Z.of_nat (Z.to_nat 1)
    <= 2 ^ 53 /\
  effectiveNounSize m * effectiveAdjectiveSize m ^ Z.of_nat (Z.to_nat 2)
    <= 2 ^ 53.
Proof.
  destruct (Facts.effective_sizes_positive m) as [Hn Ha].
  change (Z.of_nat (Z.to_nat 0)) with 0.
  change (Z.of_nat (Z.to_nat 1)) with 1.
  change (Z.of_nat (Z.to_nat 2)) with 2.
  rewrite Z.pow_0_r, Z.pow_1_r, Z.pow_2_r.
  set (n := effectiveNounSize m) in *. set (k := effectiveAdjectiveSize m) in *.
  assert (Hkk : k * k <= 642 * 642) by (apply Z.mul_le_mono_nonneg; lia).
  assert (Hnk : n * k <= 554 * 642) by (apply Z.mul_le_mono_nonneg; lia).
  assert (Hnkk : n * (k * k) <= 554 * (642 * 642))
    by (apply Z.mul_le_mono_nonneg; lia).
  assert (554 * (642 * 642) <= 2 ^ 53) by (vm_compute; discriminate).
  lia.
Qed.

(** The codename with one more adjective ends with the codename without
    it, while the number of codenames is at most [2 ^ 53]. *)
Lemma codename_suffix (obj : pyobj) (a m : Z) (j : option string) (c : bool)
    (h : string) (H : list byte -> list byte) :
  obj <> PyNone ->
  convertible obj ->
  hashlib_new h = Some H ->
  H (object_bytes obj) <> [] ->
  0 <= a ->
  effectiveNounSize m * effectiveAdjectiveSize m ^ Z.of_nat (Z.to_nat a)
    <= 2 ^ 53 ->
  effectiveNounSize m * effectiveAdjectiveSize m ^ Z.of_nat (Z.to_nat (a + 1))
    <= 2 ^ 53 ->
  exists c0 c1,
    codenamize hashlib_new obj a m j c h = Py.Ok c0 /\
    codenamize hashlib_new obj (a + 1) m j c h = Py.Ok c1 /\
    is_suffix c0 c1.
Proof.
  intros Hobj Hconv Hh Hd Ha Hs0 Hs1. unfold codenamize.
  rewrite (codenamize_particles_below_2_53 obj a m h H Hobj Hconv Hh Hd Hs0).
  rewrite (codenamize_particles_below_2_53 obj (a + 1) m h H Hobj Hconv Hh Hd
             Hs1).
  cbn [Py.bind].
  set (d := H (object_bytes obj)).
  destruct (Facts.spec_words_succ d a m Ha) as (w & _ & Hw).
  destruct Facts.words_at_least_2 as [HA HN].
  pose proof (Facts.spec_words_Forall (at_least 2) d a m HN HA) as Hws.
  pose proof (Facts.spec_words_Forall (at_least 2) d (a + 1) m HN HA) as Hws1.
  pose proof (Facts.spec_words_length d a m) as Hlen.
  rewrite Hw in *. set (ws := spec_words d a m) in *.
  set (sep := match j with None => EmptyString | Some j0 => j0 end).
  destruct c.
  - rewrite !Facts.mapM_capitalize_word by assumption. cbn [Py.bind map].
    do 2 eexists. split; [reflexivity |]. split; [reflexivity |].
    rewrite Facts.join_cons.
    + eexists. reflexivity.
    + intros E. apply (f_equal (@List.length string)) in E.
      rewrite length_map, Hlen in E. discriminate.
  - cbn [Py.bind].
    do 2 eexists. split; [reflexivity |]. split; [reflexivity |].
    rewrite Facts.join_cons.
    + eexists. reflexivity.
    + intros E. rewrite E in Hlen. discriminate.
Qed.

(** C7: the codename with no adjective is a suffix of the codename with one
    adjective, itself a suffix of the codename with two, for the same
    object, ceiling, separator, capitalisation and algorithm; the three
    codenames are produced for every object that converts to text. *)
Theorem C7_codenames_retained_as_suffixes (obj : pyobj) (m : Z)
    (j : option string) (c : bool) (h : string) (H : list byte -> list byte) :
  obj <> PyNone ->
  convertible obj ->
  hashlib_new h = Some H ->
  H (object_bytes obj) <> [] ->
  exists c0 c1 c2,
    codenamize hashlib_new obj 0 m j c h = Py.Ok c0 /\
    codenamize hashlib_new obj 1 m j c h = Py.Ok c1 /\
    codenamize hashlib_new obj 2 m j c h = Py.Ok c2 /\
    is_suffix c0 c1 /\ is_suffix c1 c2.
Proof.
  intros Hobj Hconv Hh Hd.
  destruct (small_spaces m) as (S0 & S1 & S2).
  destruct (codename_suffix obj 0 m j c h H Hobj Hconv Hh Hd ltac:(lia) S0 S1)
    as (c0 & c1 & E0 & E1 & Hsuf01).
  destruct (codename_suffix obj 1 m j c h H Hobj Hconv Hh Hd ltac:(lia) S1 S2)
    as (c1' & c2 & E1' & E2 & Hsuf12).
  change (0 + 1) with 1 in E1. change (1 + 1) with 2 in E2.
  rewrite E1 in E1'. injection E1' as <-.
  exists c0, c1, c2. auto.
Qed.

(** C10: a negative adjective count gives what count 0 gives: the same
    result or the same error; the noun-only space size when there is no
    object, and one word, a noun, when there is one that converts to text
    and the algorithm is known. *)
Theorem C10_negative_adjectives_as_zero (obj : pyobj) (a m : Z) (h : string) :
  a < 0 ->
  codenamize_particles hashlib_new obj a m h =
    codenamize_particles hashlib_new obj 0 m h /\
  codenamize_particles hashlib_new PyNone a m h =
    Py.Ok (Space (effectiveNounSize m)) /\
  (obj <> PyNone ->
   convertible obj ->
   forall H, hashlib_new h = Some H -> H (object_bytes obj) <> [] ->
   exists noun, In noun NOUNS /\
     codenamize_particles hashlib_new obj a m h = Py.Ok (Words [noun])).
Proof.
  intros Ha.
  assert (Hlists : particle_lists a m = particle_lists 0 m).
  { unfold particle_lists. replace (Z.to_nat a) with (Z.to_nat 0) by lia.
    reflexivity. }
  assert (Hsame : forall o, codenamize_particles hashlib_new o a m h =
                            codenamize_particles hashlib_new o 0 m h).
  { intros o. rewrite !codenamize_particles_eq, Hlists. reflexivity. }
  split; [apply Hsame |]. split.
  - rewrite Hsame, space_size. change (Z.of_nat (Z.to_nat 0)) with 0.
    rewrite Z.pow_0_r, Z.mul_1_r. reflexivity.
  - intros Hobj Hconv H Hh Hd. rewrite Hsame.
    destruct (small_spaces m) as (S0 & _).
    rewrite (codenamize_particles_below_2_53 obj 0 m h H Hobj Hconv Hh Hd S0).
    destruct (Facts.spec_words_noun (H (object_bytes obj)) m)
      as (noun & Hin & Hnoun).
    exists noun. rewrite Hnoun. auto.
Qed.

(** C8, as the lists are: every adjective has at least 3 characters, every
    noun at least 2, the only noun below 3 being the word ox, and every
    particle selected for a request has at least 2 characters. *)
Theorem C8_word_lengths :
  Forall (at_least 3) ADJECTIVES /\
  Forall (at_least 2) NOUNS /\
  (forall w, In w NOUNS -> ~ at_least 3 w -> w = "ox"%string) /\
  (forall obj a m h ws,
     codenamize_particles hashlib_new obj a m h = Py.Ok (Words ws) ->
     Forall (at_least 2) ws).
Proof.
  split; [exact Facts.adjectives_at_least_3 |].
  split; [exact Facts.nouns_at_least_2 |]. split.
  - pose proof Facts.short_nouns as Hs. rewrite Forall_forall in Hs. exact Hs.
  - intros obj a m h ws. rewrite codenamize_particles_eq. cbv zeta.
    destruct Facts.words_at_least_2 as [HA HN].
    pose proof (Facts.particle_lists_Forall (at_least 2) a m HN HA) as Hp.
    assert (Hrun : forall b,
      (_ <- conversion obj ;;
       hh <- Py.of_option Py.ValueError (hashlib_new h) ;;
       d <- Py.int16 (Py.hexdigest (hh b)) ;;
       index <- Py.mod_ (d * PRIME_FACTOR)
                  (fold_left Z.mul (map Py.len (particle_lists a m)) 1) ;;
       ws0 <- select_words (particle_lists a m) index [] ;;
       Py.Ok (Words (rev ws0))) = Py.Ok (Words ws) ->
      Forall (at_least 2) ws).
    { intros b. destruct (conversion obj); cbn [Py.bind]; [| discriminate].
      destruct (hashlib_new h) as [hh |]; cbn [Py.of_option Py.bind];
        [| discriminate].
      destruct (Py.int16 _) as [d | e]; cbn [Py.bind]; [| discriminate].
      destruct (Py.mod_ _ _) as [index | e]; cbn [Py.bind]; [| discriminate].
      destruct (select_words _ _ _) as [ws0 | e] eqn:Hsel; cbn [Py.bind];
        [| discriminate].
      intros E. injection E as <-. apply Forall_rev.
      eapply Facts.select_words_Forall; [exact Hp | | exact Hsel].
      constructor. }
    destruct obj; [discriminate | apply Hrun ..].
Qed.

End Properties.

(** ** The documented examples, run with MD5 *)

Local Open Scope string_scope.

Lemma md5_rfc1321_suite :
  Py.hexdigest (MD5.digest (Py.encode_utf8 "")) =
    "d41d8cd98f00b204e9800998ecf8427e" /\
  Py.hexdigest (MD5.digest (Py.encode_utf8 "abc")) =
    "900150983cd24fb0d6963f7d28e17f72" /\
  Py.hexdigest (MD5.digest (Py.encode_utf8 "message digest")) =
    "f96b697d7cb7938d525a2f31aaf161d0" /\
  Py.hexdigest (MD5.digest (Py.encode_utf8
    "12345678901234567890123456789012345678901234567890123456789012345678901234567890")) =
    "57edf4a22be3c955ac49da2e2107b67a".
Proof. repeat split; vm_compute; reflexivity. Qed.

Lemma not_in_word_list (w : string) (L : list string) :
  existsb (String.eqb w) L = false -> ~ In w L.
Proof.
  intros Hex Hin.
  assert (Htrue : existsb (String.eqb w) L = true).
  { apply existsb_exists. exists w. split; [exact Hin | apply String.eqb_refl]. }
  congruence.
Qed.

Lemma in_word_list (w : string) (L : list string) :
  existsb (String.eqb w) L = true -> In w L.
Proof.
  intros Hex. apply existsb_exists in Hex. destruct Hex as (v & Hin & Hv).
  apply String.eqb_eq in Hv. subst v. exact Hin.
Qed.

(** C1: with 6 adjectives and no ceiling the index of the integer 1 is
    38641060708699387015; [int(index / 554)] is 69749207055414056 where the
    floor of the quotient is 69749207055414055, so the word after the noun
    is not the one the mixed-radix decoding selects, and the codename with 5
    adjectives is not a suffix of the codename with 6. *)
Theorem C1_true_division_departs_from_floor :
  (big_endian (MD5.digest (object_bytes (PyInt 1))) * PRIME_FACTOR)
    mod (554 * 642 ^ 6) = 38641060708699387015 /\
  (q <- Py.truediv 38641060708699387015 554 ;; Py.Ok (Py.int_of_float q)) =
    Py.Ok 69749207055414056 /\
  38641060708699387015 / 554 = 69749207055414055 /\
  codenamize_particles hashlib_md5 (PyInt 1) 6 0 "md5" =
    Py.Ok (Words ["brightening"; "settled"; "swaying"; "terraced";
                  "dissolving"; "thinning"; "streamlet"]) /\
  spec_words (MD5.digest (object_bytes (PyInt 1))) 6 0 =
    ["brightening"; "settled"; "swaying"; "terraced"; "dissolving";
     "shifting"; "streamlet"] /\
  codenamize hashlib_md5 (PyInt 1) 5 0 (Some "-") false "md5" =
    Py.Ok "settled-swaying-terraced-dissolving-shifting-streamlet" /\
  codenamize hashlib_md5 (PyInt 1) 6 0 (Some "-") false "md5" =
    Py.Ok "brightening-settled-swaying-terraced-dissolving-thinning-streamlet".
Proof. repeat split; vm_compute; reflexivity. Qed.

(** C4: the integer 100001, the text and the byte string of its numeral
    give one codename with 1 adjective and ceiling 5, and it is quiet-flare,
    not funny-boat; neither word of funny-boat is in the lists. *)
Theorem C4_codename_of_100001 :
  codenamize hashlib_md5 (PyInt 100001) 1 5 (Some "-") false "md5" =
    Py.Ok "quiet-flare" /\
  codenamize hashlib_md5 (PyText "100001") 1 5 (Some "-") false "md5" =
    Py.Ok "quiet-flare" /\
  codenamize hashlib_md5 (PyBytes (Py.encode_utf8 "100001")) 1 5 (Some "-")
    false "md5" = Py.Ok "quiet-flare" /\
  ~ In "boat" NOUNS /\ ~ In "funny" ADJECTIVES.
Proof.
  split; [vm_compute; reflexivity |].
  split; [vm_compute; reflexivity |].
  split; [vm_compute; reflexivity |].
  split; apply not_in_word_list; vm_compute; reflexivity.
Qed.

(** C8, refuted as stated: the noun ox has 2 characters, and it is the
    particle selected for the integer 10 with no adjective and ceiling 3. *)
Lemma C8_counterexample_ox :
  ~ (forall w, In w ADJECTIVES \/ In w NOUNS -> at_least 3 w) /\
  ~ (forall obj a m h ws,
       codenamize_particles hashlib_md5 obj a m h = Py.Ok (Words ws) ->
       Forall (at_least 3) ws).
Proof.
  split.
  - intros Hall.
    assert (Hox : at_least 3 "ox").
    { apply Hall. right. apply in_word_list. vm_compute. reflexivity. }
    unfold at_least in Hox. cbn in Hox. lia.
  - intros Hall.
    assert (Hox : Forall (at_least 3) ["ox"]).
    { apply (Hall (PyInt 10) 0 3 "md5"). vm_compute. reflexivity. }
    inversion Hox as [| w ws Hw _]. unfold at_least in Hw. cbn in Hw. lia.
Qed.

Lemma md5_digest_nonempty (msg : list byte) : MD5.digest msg <> [].
Proof.
  unfold MD5.digest.
  destruct (fold_left MD5.compress _ MD5.init) as [[[a b] c] d].
  discriminate.
Qed.

(** C5, refuted as stated: the integer 10 ^ 4300 has 4301 digits; its
    codename is not computed, the conversion to text raising [ValueError],
    while the call on its numeral returns a codename. *)
Lemma C5_counterexample_digit_limit :
  codenamize hashlib_md5 (PyInt (10 ^ 4300)) 1 0 (Some "-") false "md5" =
    Py.Raise Py.ValueError /\
  exists codename,
    codenamize hashlib_md5 (PyText (Py.decimal (10 ^ 4300))) 1 0 (Some "-")
      false "md5" = Py.Ok codename.
Proof.
  split.
  - apply (integer_beyond_limit_raises hashlib_md5 (10 ^ 4300) 1 0 (Some "-")
             false "md5").
    apply Facts.beyond_limit.
    rewrite Z.abs_eq by (apply Z.pow_nonneg; discriminate).
    apply Z.le_refl.
  - destruct (small_spaces 0) as (S0 & S1 & _).
    destruct (codename_suffix hashlib_md5 (PyText (Py.decimal (10 ^ 4300))) 0 0
                (Some "-") false "md5" MD5.digest)
      as (c0 & c1 & _ & E1 & _).
    + discriminate.
    + exact I.
    + reflexivity.
    + apply md5_digest_nonempty.
    + lia.
    + exact S0.
    + exact S1.
    + exists c1. exact E1.
Qed.

(** *** The theorems at concrete requests *)

Lemma C5_witness :
  Z.of_nat (String.length (Py.decimal (Z.abs 100001)))
    <= Py.int_max_str_digits /\
  codenamize hashlib_md5 (PyInt 100001) 1 5 (Some "-") false "md5" =
    codenamize hashlib_md5 (PyText (Py.decimal 100001)) 1 5 (Some "-") false
      "md5".
Proof.
  assert (H : Z.of_nat (String.length (Py.decimal (Z.abs 100001)))
               <= Py.int_max_str_digits) by (vm_compute; discriminate).
  split; [exact H |].
  exact (proj1 (proj1 (C5_integer_as_decimal_string hashlib_md5 100001 1 5
                         (Some "-") false "md5") H)).
Defined.

Lemma C2_witness :
  0 <= 1 /\
  codenamize_particles hashlib_md5 PyNone 1 5 "md5" =
    Py.Ok (Space (effectiveNounSize 5 * effectiveAdjectiveSize 5 ^ 1)).
Proof.
  split; [lia |].
  exact (proj1 (C2_space_is_noun_size_times_adjective_power hashlib_md5 1 5
                  "md5" ltac:(lia))).
Defined.

Lemma C6_witness :
  0 < 2 < 3 /\
  codenamize_particles hashlib_md5 (PyInt 7) 1 2 "md5" =
    codenamize_particles hashlib_md5 (PyInt 7) 1 3 "md5".
Proof.
  split; [lia |].
  exact (proj1 (proj2 (proj2
           (C6_ceiling_normalization hashlib_md5 (PyInt 7) 1 "md5")))
           2 ltac:(lia)).
Defined.

Lemma C7_witness :
  PyInt 100001 <> PyNone /\
  convertible (PyInt 100001) /\
  hashlib_md5 "md5" = Some MD5.digest /\
  MD5.digest (object_bytes (PyInt 100001)) <> [] /\
  exists c0 c1 c2,
    codenamize hashlib_md5 (PyInt 100001) 0 5 (Some "-") false "md5" = Py.Ok c0 /\
    codenamize hashlib_md5 (PyInt 100001) 1 5 (Some "-") false "md5" = Py.Ok c1 /\
    codenamize hashlib_md5 (PyInt 100001) 2 5 (Some "-") false "md5" = Py.Ok c2 /\
    is_suffix c0 c1 /\ is_suffix c1 c2.
Proof.
  split; [discriminate |]. split; [vm_compute; discriminate |].
  split; [reflexivity |].
  split; [vm_compute; discriminate |].
  apply (C7_codenames_retained_as_suffixes hashlib_md5 (PyInt 100001) 5
           (Some "-") false "md5" MD5.digest).
  - discriminate.
  - vm_compute. discriminate.
  - reflexivity.
  - vm_compute. discriminate.
Defined.

Lemma C8_witness :
  codenamize_particles hashlib_md5 (PyInt 10) 0 3 "md5" = Py.Ok (Words ["ox"]) /\
  Forall (at_least 2) ["ox"].
Proof.
  split; [vm_compute; reflexivity |].
  apply (proj2 (proj2 (proj2 (C8_word_lengths hashlib_md5)))
           (PyInt 10) 0 3 "md5").
  vm_compute. reflexivity.
Defined.

Lemma C10_witness :
  -2 < 0 /\
  codenamize_particles hashlib_md5 (PyInt 100001) (-2) 5 "md5" =
    codenamize_particles hashlib_md5 (PyInt 100001) 0 5 "md5" /\
  codenamize_particles hashlib_md5 PyNone (-2) 5 "md5" =
    Py.Ok (Space (effectiveNounSize 5)).
Proof.
  split; [lia |].
  destruct (C10_negative_adjectives_as_zero hashlib_md5 (PyInt 100001) (-2) 5
              "md5" ltac:(lia)) as (Hsame & Hspace & _).
  split; [exact Hsame | exact Hspace].
Defined.
